(** * The account-linking flow of the X-engagement dashboard

    A shallow embedding of
      - [src/unnamed/part_003]  (the [authService] object),
      - [src/frontend/src/components/TwitterAuthModal.js],
      - the [Settings] page in [src/frontend/src/pages/Login.js]
        (handlers [handleTwitterSuccess], [handleRemoveTwitterAccount],
        [handleSetDefaultAccount]),
    followed by the properties of the specification's section 8 and of
    its interface table, each settled against these definitions. *)

From Stdlib Require Import String List ZArith Bool Lia DecimalString.
Import ListNotations.

Local Open Scope list_scope.
Local Open Scope string_scope.

Set Warnings "-register-all".

(* ===================================================================== *)
(** ** JavaScript values *)
(* ===================================================================== *)

(** The JSON-shaped fragment of JavaScript values the program handles.
    Numbers are integers of magnitude below 10^21 (the program only counts
    and compares with 0; from 10^21 on JavaScript prints a number in
    exponent form); strings are ASCII text, one character per code unit;
    an object is the list of its own properties in insertion order. *)
Inductive value : Type :=
| VUndefined
| VNull
| VBool (b : bool)
| VNum (n : Z)
| VStr (s : string)
| VArr (elems : list value)
| VObj (props : list (string * value)).

(** Outcome of evaluating an expression or a block: a value, or a thrown
    exception carrying the thrown value. *)
Inductive result (A : Type) : Type :=
| Ok (a : A)
| Throw (exn : value).
Arguments Ok {A} a.
Arguments Throw {A} exn.

Module JS.

(** ToBoolean. *)
Definition truthy (v : value) : bool :=
  match v with
  | VUndefined | VNull => false
  | VBool b => b
  | VNum n => negb (n =? 0)%Z
  | VStr s => negb (s =? "")
  | VArr _ | VObj _ => true
  end.

(** [a || b]: the left operand when it is truthy, else the right one. *)
Definition or (a b : value) : value := if truthy a then a else b.

Definition nullish (v : value) : bool :=
  match v with VUndefined | VNull => true | _ => false end.

(** Decimal rendering of an integer number (as JavaScript prints it
    below 10^21). *)
Definition number_to_string (n : Z) : string :=
  NilZero.string_of_int (Z.to_int n).

(** ToString, as used by template literals and by [new Error(msg)].
    Inside [Array.prototype.join] a nullish element prints as nothing. *)
Fixpoint to_string (v : value) : string :=
  match v with
  | VUndefined => "undefined"
  | VNull => "null"
  | VBool true => "true"
  | VBool false => "false"
  | VNum n => number_to_string n
  | VStr s => s
  | VArr elems =>
      (fix join (l : list value) : string :=
         match l with
         | [] => ""
         | x :: rest =>
             let sx := if nullish x then "" else to_string x in
             match rest with
             | [] => sx
             | _ :: _ => sx ++ "," ++ join rest
             end
         end) elems
  | VObj _ => "[object Object]"
  end.

(** Own-property lookup in an object's property list. *)
Fixpoint lookup (k : string) (props : list (string * value)) : value :=
  match props with
  | [] => VUndefined
  | (k', v) :: rest => if k' =? k then v else lookup k rest
  end.

(** [new Error(message)]: the only field the program reads back is
    [message], which the constructor stores converted to a string (and
    leaves empty when the argument is [undefined]). *)
Definition new_Error (message : value) : value :=
  VObj [("message",
         VStr (match message with VUndefined => "" | m => to_string m end))].

(** The TypeError raised by a property read on [null] or [undefined]
    (message wording of V8). *)
Definition type_error (v : value) (k : string) : value :=
  VObj [("message",
         VStr ("Cannot read properties of " ++ to_string v
               ++ " (reading '" ++ k ++ "')"))].

(** [v.k] for the property names the program reads
    ([request_id], [success], [error], [status], [username],
    [display_name], [profile_image_url], [message], [response], [data],
    [detail], [twoFactorToken], [password], [length]): a read on a
    nullish value throws, arrays and strings answer [length], any other
    primitive has none of these properties. *)
Definition get (v : value) (k : string) : result value :=
  match v with
  | VUndefined | VNull => Throw (type_error v k)
  | VObj props => Ok (lookup k props)
  | VArr elems =>
      Ok (if k =? "length" then VNum (Z.of_nat (List.length elems))
          else VUndefined)
  | VStr s =>
      Ok (if k =? "length" then VNum (Z.of_nat (String.length s))
          else VUndefined)
  | VBool _ | VNum _ => Ok VUndefined
  end.

(** [v?.k]: the optional chaining step. *)
Definition get_opt (v : value) (k : string) : value :=
  match v with
  | VUndefined | VNull => VUndefined
  | _ => match get v k with Ok x => x | Throw _ => VUndefined end
  end.

(** [v === 'literal']. *)
Definition strict_eq_str (v : value) (s : string) : bool :=
  match v with
  | VStr t => t =? s
  | _ => false
  end.

(** What [JSON.stringify] keeps of a value (axios serialises request
    bodies with it): object properties whose value is [undefined] are
    dropped, [undefined] array elements become [null]. *)
Fixpoint json (v : value) : value :=
  match v with
  | VArr elems =>
      VArr (map (fun x => match x with
                          | VUndefined => VNull
                          | _ => json x
                          end) elems)
  | VObj props =>
      VObj ((fix keep (l : list (string * value)) : list (string * value) :=
               match l with
               | [] => []
               | (k, VUndefined) :: rest => keep rest
               | (k, x) :: rest => (k, json x) :: keep rest
               end) props)
  | _ => v
  end.

(** The property names of an object. *)
Definition keys (v : value) : list string :=
  match v with
  | VObj props => map fst props
  | _ => []
  end.

End JS.

(* ===================================================================== *)
(** ** Effects, and the monad the handlers run in *)
(* ===================================================================== *)

Inductive http_method : Type := GET | POST | DELETE.

(** A request handed to the [api] (axios) instance. *)
Record request : Type := mkRequest {
  method : http_method;
  url : string;
  body : value          (* [VUndefined] when the call passes no body *)
}.

(** How an axios call settles: it resolves with a response of which the
    program reads only [response.data], or it rejects with an error. *)
Inductive axios_outcome (A : Type) : Type :=
| Resolved (data : A)
| Rejected (error : value).
Arguments Resolved {A} data.
Arguments Rejected {A} error.

(** What a handler does to the outside world, in order. *)
Inductive effect : Type :=
| Http (req : request)                       (* api.get / api.post / api.delete *)
| On_success (response : value)              (* onSuccess(response) *)
| On_close                                   (* onClose() *)
| Set_timeout_onClose (delay : Z)            (* setTimeout(() => onClose(), delay) *)
| Clear_interval (id : value)                (* clearInterval(id) *)
| Toast_success (msg : string)
| Toast_error (msg : string)
| Console_error (label : string) (err : value).

(** A computation over component state [S]: it returns or throws, leaves
    a state (updates made before a throw stay), and lists its effects. *)
Definition M (S A : Type) : Type := S -> result A * S * list effect.

Definition ret {S A} (a : A) : M S A := fun s => (Ok a, s, []).

Definition bind {S A B} (m : M S A) (f : A -> M S B) : M S B :=
  fun s =>
    match m s with
    | (Ok a, s1, w1) =>
        match f a s1 with
        | (r, s2, w2) => (r, s2, (w1 ++ w2)%list)
        end
    | (Throw e, s1, w1) => (Throw e, s1, w1)
    end.

(** [try { body } catch (err) { handler err }]. *)
Definition try_catch {S A} (body : M S A) (handler : value -> M S A) : M S A :=
  fun s =>
    match body s with
    | (Ok a, s1, w1) => (Ok a, s1, w1)
    | (Throw e, s1, w1) =>
        match handler e s1 with
        | (r, s2, w2) => (r, s2, (w1 ++ w2)%list)
        end
    end.

Definition lift {S A} (r : result A) : M S A := fun s => (r, s, []).
Definition emit {S} (e : effect) : M S unit := fun s => (Ok tt, s, [e]).
Definition read {S A} (f : S -> A) : M S A := fun s => (Ok (f s), s, []).
Definition update {S} (f : S -> S) : M S unit := fun s => (Ok tt, f s, []).
Definition when {S} (c : bool) (m : M S unit) : M S unit :=
  if c then m else ret tt.

Declare Scope js_scope.
Delimit Scope js_scope with js.
Notation "x <- m ;; k" := (bind m (fun x => k))
  (at level 61, m at next level, right associativity) : js_scope.
Notation "m ;; k" := (bind m (fun _ => k))
  (at level 61, right associativity) : js_scope.
Local Open Scope js_scope.

Definition outcome_of {S A} (x : result A * S * list effect) : result A :=
  fst (fst x).
Definition state_of {S A} (x : result A * S * list effect) : S :=
  snd (fst x).
Definition effects_of {S A} (x : result A * S * list effect) : list effect :=
  snd x.

(** The requests among a list of effects. *)
Fixpoint requests (w : list effect) : list request :=
  match w with
  | [] => []
  | Http req :: rest => req :: requests rest
  | _ :: rest => requests rest
  end.

(** The results handed to the [onSuccess] callback. *)
Fixpoint emitted (w : list effect) : list value :=
  match w with
  | [] => []
  | On_success r :: rest => r :: emitted rest
  | _ :: rest => emitted rest
  end.

(* ===================================================================== *)
(** ** Data model *)
(* ===================================================================== *)

(** An entry of the [twitterAccounts] list of the Settings page.  The
    three display fields are whatever JSON the service (or a link result)
    supplied; the two flags are booleans. *)
Record account : Type := mkAccount {
  username : value;
  display_name : value;
  profile_image_url : value;
  is_default : bool;
  is_active : bool
}.

(** What [GET /user/twitter-accounts] carries in [response.data]: a JSON
    array of accounts, or [null] ([None]). *)
Definition accounts_payload : Type := option (list account).

(* ===================================================================== *)
(** ** [authService]  (src/unnamed/part_003) *)
(* ===================================================================== *)

Module authService.

(** The body shared by every method:
    [try { const response = await api.m(...); return response.data; }
     catch (error) { throw new Error(error.response?.data?.detail || fallback); }] *)
Definition rethrow {A} (fallback : string) (o : axios_outcome A) : result A :=
  match o with
  | Resolved data => Ok data
  | Rejected error =>
      match JS.get error "response" with
      | Ok response =>
          Throw (JS.new_Error
                   (JS.or (JS.get_opt (JS.get_opt response "data") "detail")
                          (VStr fallback)))
      | Throw e => Throw e
      end
  end.

(** A method call: the request it hands to [api], and what the method
    returns or throws once that request settles. *)
Record call (A : Type) : Type := mkCall {
  sent : request;
  settle : axios_outcome A -> result A
}.
Arguments mkCall {A} sent settle.
Arguments sent {A} c.
Arguments settle {A} c o.

Definition removeTwitterAccount (username : string) : call value :=
  mkCall (mkRequest DELETE ("/user/accounts/" ++ username) VUndefined)
         (rethrow "Failed to remove Twitter account").

Definition startTwitterAuth : call value :=
  mkCall (mkRequest POST "/user/auth/twitter/request" VUndefined)
         (rethrow "Failed to start Twitter authentication").

Definition checkTwitterAuthStatus (requestId : value) : call value :=
  mkCall (mkRequest GET ("/user/auth/twitter/status/" ++ JS.to_string requestId)
                    VUndefined)
         (rethrow "Failed to check Twitter authentication status").

Definition completeTwitterAuth (requestId credentials : value) : call value :=
  mkCall (mkRequest POST
                    ("/user/auth/twitter/authenticate/" ++ JS.to_string requestId)
                    credentials)
         (rethrow "Failed to complete Twitter authentication").

Definition getTwitterAccounts : call accounts_payload :=
  mkCall (mkRequest GET "/user/twitter-accounts" VUndefined)
         (rethrow "Failed to get Twitter accounts").

(** [await authService.f(...)] when the request settles as [o]. *)
Definition await {S A} (c : call A) (o : axios_outcome A) : M S A :=
  emit (Http (sent c)) ;; lift (settle c o).

(** [accounts && accounts.length > 0]: a [null] payload is falsy and is
    itself the value of the conjunction; an array is truthy. *)
Definition and_length_gt_0 (accounts : accounts_payload) : value :=
  match accounts with
  | None => VNull
  | Some l => VBool (0 <? Z.of_nat (List.length l))%Z
  end.

Definition hasLinkedTwitterAccount {S} (o : axios_outcome accounts_payload)
  : M S value :=
  try_catch
    (accounts <- await getTwitterAccounts o ;;
     ret (and_length_gt_0 accounts))
    (fun error =>
       emit (Console_error "Error checking Twitter accounts:" error) ;;
       ret (VBool false)).

End authService.

(* ===================================================================== *)
(** ** [TwitterAuthModal]  (src/frontend/src/components/TwitterAuthModal.js) *)
(* ===================================================================== *)

Module TwitterAuthModal.

(** The four [useState] cells. *)
Record modal : Type := mkModal {
  step : string;   (* initial, credentials, processing, success, error *)
  requestId : value;
  error : value;
  statusCheckInterval : value
}.

Definition initial_modal : modal :=
  mkModal "initial" VNull VNull VNull.

Definition setStep (s : string) : M modal unit :=
  update (fun m => mkModal s (requestId m) (error m) (statusCheckInterval m)).
Definition setRequestId (r : value) : M modal unit :=
  update (fun m => mkModal (step m) r (error m) (statusCheckInterval m)).
Definition setError (e : value) : M modal unit :=
  update (fun m => mkModal (step m) (requestId m) e (statusCheckInterval m)).

(** Where an [async] handler stands when it first gives control back:
    it has finished, or it waits for its request to settle and then
    continues with [k]. *)
Inductive suspended : Type :=
| Finished
| Awaiting (k : axios_outcome value -> M modal unit).

(** [try { pre; const x = await call; post x } catch (err) { handler err }] *)
Definition try_await {A} (pre : M modal A) (call : A -> authService.call value)
           (post : A -> value -> M modal unit) (handler : value -> M modal unit)
  : M modal suspended :=
  try_catch
    (a <- pre ;;
     emit (Http (authService.sent (call a))) ;;
     ret (Awaiting (fun o =>
                      try_catch
                        (x <- lift (authService.settle (call a) o) ;; post a x)
                        handler)))
    (fun err => handler err ;; ret Finished).

(** A handler run to its end, its request settling as [o]. *)
Definition complete (h : M modal suspended) (o : axios_outcome value)
  : M modal unit :=
  r <- h ;;
  match r with
  | Finished => ret tt
  | Awaiting k => k o
  end.

Definition startAuth : M modal suspended :=
  try_await
    (setError VNull)
    (fun _ => authService.startTwitterAuth)
    (fun _ response =>
       rid <- lift (JS.get response "request_id") ;;
       setRequestId rid ;;
       setStep "credentials")
    (fun err =>
       m <- lift (JS.get err "message") ;;
       setError (JS.or m (VStr "Failed to start Twitter authentication")) ;;
       setStep "error").

(** [onSuccess] tells whether the parent passed the callback. *)
Definition onSubmit (onSuccess : bool) (data : value) : M modal suspended :=
  try_await
    (setError VNull ;;
     setStep "processing" ;;
     u <- lift (JS.get data "username") ;;
     p <- lift (JS.get data "password") ;;
     t <- lift (JS.get data "twoFactorToken") ;;
     rid <- read requestId ;;
     ret (rid, VObj [("username", u);
                     ("password", p);
                     ("two_factor_token", JS.or t VUndefined)]))
    (fun '(rid, credentials) => authService.completeTwitterAuth rid credentials)
    (fun _ response =>
       ok <- lift (JS.get response "success") ;;
       if JS.truthy ok then
         setStep "success" ;;
         when onSuccess (emit (On_success response)) ;;
         emit (Toast_success "Twitter account linked successfully!") ;;
         emit (Set_timeout_onClose 2000)
       else
         e <- lift (JS.get response "error") ;;
         setError (JS.or e (VStr "Authentication failed")) ;;
         setStep "error")
    (fun err =>
       m <- lift (JS.get err "message") ;;
       setError (JS.or m (VStr "Failed to authenticate with Twitter")) ;;
       setStep "error").

Definition checkStatus (onSuccess : bool) : M modal suspended :=
  try_await
    (rid <- read requestId ;;
     iv <- read statusCheckInterval ;;
     ret (rid, iv))
    (fun '(rid, _) => authService.checkTwitterAuthStatus rid)
    (fun '(_, iv) response =>
       st <- lift (JS.get response "status") ;;
       if JS.strict_eq_str st "completed" then
         emit (Clear_interval iv) ;;
         setStep "success" ;;
         when onSuccess (emit (On_success response))
       else if JS.strict_eq_str st "failed" then
         emit (Clear_interval iv) ;;
         e <- lift (JS.get response "error") ;;
         setError (JS.or e (VStr "Authentication failed")) ;;
         setStep "error"
       else ret tt)
    (fun err => emit (Console_error "Error checking auth status:" err)).

(** The [useEffect] on [[isOpen]]: its body, and the clean-up it
    returns. *)
Definition effect_body (isOpen : bool) : M modal suspended :=
  s <- read step ;;
  if isOpen && (s =? "initial") then startAuth else ret Finished.

Definition effect_cleanup : M modal unit :=
  iv <- read statusCheckInterval ;;
  when (JS.truthy iv) (emit (Clear_interval iv)).

End TwitterAuthModal.

(* ===================================================================== *)
(** ** The modal as the page drives it *)
(* ===================================================================== *)

Module Flow.
Import TwitterAuthModal.

(** The mounted modal together with what surrounds it: the parent's
    [showTwitterModal] flag (the [isOpen] prop), the requests still in
    flight with the continuation each one resumes, the timers that are
    set and not yet fired or cleared, and everything done so far. *)
Record system : Type := mkSystem {
  ui : modal;
  isOpen : bool;
  inflight : list (axios_outcome value -> M modal unit);
  timers : list Z;
  next_timer : Z;
  trace : list effect
}.

Definition init : system := mkSystem initial_modal false [] [] 1 [].

Definition with_ui (m : modal) (s : system) : system :=
  mkSystem m (isOpen s) (inflight s) (timers s) (next_timer s) (trace s).
Definition with_isOpen (b : bool) (s : system) : system :=
  mkSystem (ui s) b (inflight s) (timers s) (next_timer s) (trace s).
Definition with_inflight (l : list (axios_outcome value -> M modal unit))
           (s : system) : system :=
  mkSystem (ui s) (isOpen s) l (timers s) (next_timer s) (trace s).
Definition with_timers (l : list Z) (s : system) : system :=
  mkSystem (ui s) (isOpen s) (inflight s) l (next_timer s) (trace s).
Definition log (e : effect) (s : system) : system :=
  mkSystem (ui s) (isOpen s) (inflight s) (timers s) (next_timer s)
           (trace s ++ [e])%list.

(** [clearInterval(id)]: a number cancels the timer of that id, any
    other value cancels nothing. *)
Definition clear (id : value) (l : list Z) : list Z :=
  match id with
  | VNum n => filter (fun t => negb (t =? n)%Z) l
  | _ => l
  end.

(** The timers after a list of effects. *)
Definition timer_effect (e : effect) (s : system) : system :=
  match e with
  | Set_timeout_onClose _ =>
      mkSystem (ui s) (isOpen s) (inflight s)
               (timers s ++ [next_timer s])%list (next_timer s + 1)%Z
               (trace s ++ [e])%list
  | Clear_interval id => log e (with_timers (clear id (timers s)) s)
  | _ => log e s
  end.

(** [onClose()] is [setShowTwitterModal(false)]: when that changes
    [isOpen], the effect's clean-up runs (the new effect body does
    nothing, [isOpen] being false). *)
Definition close (s : system) : system :=
  if isOpen s then
    fold_left (fun acc e => timer_effect e acc)
              (effects_of (effect_cleanup (ui s)))
              (with_isOpen false s)
  else s.

Definition absorb (s : system) (e : effect) : system :=
  match e with
  | On_close => close (log e s)
  | _ => timer_effect e s
  end.

(** Run a handler on the modal and take in what it did. *)
Definition handle (h : M modal suspended) (s : system) : system :=
  match h (ui s) with
  | (r, m, w) =>
      let s' := fold_left absorb w (with_ui m s) in
      match r with
      | Ok (Awaiting k) => with_inflight (inflight s' ++ [k])%list s'
      | _ => s'
      end
  end.

Definition resume (k : axios_outcome value -> M modal unit)
           (o : axios_outcome value) (s : system) : system :=
  match k o (ui s) with
  | (_, m, w) => fold_left absorb w (with_ui m s)
  end.

Fixpoint remove_nth {A} (i : nat) (l : list A) : list A :=
  match l, i with
  | [], _ => []
  | _ :: rest, O => rest
  | x :: rest, S j => x :: remove_nth j rest
  end.

(** What can happen to the modal: the page opens it, the user presses
    the close button (or Cancel), submits the form, presses Try Again;
    a request in flight settles; a timer fires. *)
Inductive event : Type :=
| Open
| Close
| Submit (data : value)
| Try_again
| Settle (i : nat) (o : axios_outcome value)
| Fire (id : Z).

(** The component renders nothing when [isOpen] is false, the form only
    in step [credentials], the Try Again button only in step [error]. *)
Definition enabled (e : event) (s : system) : bool :=
  match e with
  | Open => negb (isOpen s)
  | Close => isOpen s
  | Submit _ => isOpen s && (step (ui s) =? "credentials")
  | Try_again => isOpen s && (step (ui s) =? "error")
  | Settle i _ => (i <? List.length (inflight s))%nat
  | Fire id => existsb (fun t => (t =? id)%Z) (timers s)
  end.

(** The parent always passes [onSuccess] ([handleTwitterSuccess]). *)
Definition dispatch (s : system) (e : event) : system :=
  if enabled e s then
    match e with
    | Open =>
        handle (effect_cleanup ;; effect_body true) (with_isOpen true s)
    | Close => absorb s On_close
    | Submit data => handle (onSubmit true data) s
    | Try_again => handle (setStep "credentials" ;; ret Finished) s
    | Settle i o =>
        match nth_error (inflight s) i with
        | Some k => resume k o (with_inflight (remove_nth i (inflight s)) s)
        | None => s
        end
    | Fire id =>
        absorb (with_timers (filter (fun t => negb (t =? id)%Z) (timers s)) s)
               On_close
    end
  else s.

Definition run (events : list event) (s : system) : system :=
  fold_left dispatch events s.

(** Events that need no action of the user or of the page. *)
Definition spontaneous (e : event) : bool :=
  match e with
  | Settle _ _ | Fire _ => true
  | _ => false
  end.

Definition is_Open (e : event) : bool :=
  match e with Open => true | _ => false end.

(** A continuation that, whenever it is resumed, only updates the modal:
    it sends nothing, sets and clears no timer, calls no callback. *)
Definition quiet (k : axios_outcome value -> M modal unit) : Prop :=
  forall o m, effects_of (k o m) = [].

(** The system at rest after a start: no timer is set, the continuations
    still waiting are quiet, and the only request ever sent is the one
    that began the link. *)
Definition calm (s : system) : Prop :=
  timers s = []
  /\ Forall quiet (inflight s)
  /\ requests (trace s) = [authService.sent authService.startTwitterAuth].

End Flow.

(* ===================================================================== *)
(** ** The Settings page  (src/frontend/src/pages/Login.js, third component) *)
(* ===================================================================== *)

Module Settings.

Definition setTwitterAccounts (f : list account -> list account)
  : M (list account) unit := update f.

Definition placeholder_image : string :=
  "https://pbs.twimg.com/profile_images/1683899100922511378/5lY42eHs_normal.jpg".

(** [twitterAccounts] is the list as the handler's closure saw it at
    render time; the state the updater function receives is the list at
    the time of the update. *)
Definition handleTwitterSuccess (twitterAccounts : list account)
           (response : value) (fetch : axios_outcome accounts_payload)
  : M (list account) unit :=
  try_catch
    (returned <-
       try_catch
         (accounts <- authService.await authService.getTwitterAccounts fetch ;;
          match accounts with
          | Some (a :: l) => setTwitterAccounts (fun _ => a :: l) ;; ret true
          | _ => ret false
          end)
         (fun error =>
            emit (Console_error "Error refreshing Twitter accounts:" error) ;;
            ret false) ;;
     if (returned : bool) then ret tt
     else
       name <- (if JS.truthy response then lift (JS.get response "username")
                else ret response) ;;
       if JS.truthy name then
         u <- lift (JS.get response "username") ;;
         d <- lift (JS.get response "display_name") ;;
         img <- lift (JS.get response "profile_image_url") ;;
         let newAccount :=
           mkAccount u (JS.or d u) (JS.or img (VStr placeholder_image))
                     (Nat.eqb (List.length twitterAccounts) 0) true in
         setTwitterAccounts (fun prev => prev ++ [newAccount])%list
       else ret tt)
    (fun error => emit (Console_error "Error handling Twitter success:" error)).

(** [confirmed] is the answer of [window.confirm]. *)
Definition handleRemoveTwitterAccount (confirmed : bool) (name : string)
           (o : axios_outcome value) : M (list account) unit :=
  if negb confirmed then ret tt
  else
    try_catch
      (authService.await (authService.removeTwitterAccount name) o ;;
       emit (Toast_success ("Twitter account @" ++ name ++ " removed successfully")) ;;
       setTwitterAccounts
         (fun prev =>
            filter (fun account => negb (JS.strict_eq_str (username account) name))
                   prev))
      (fun error =>
         emit (Console_error "Error removing Twitter account:" error) ;;
         emit (Toast_error "Failed to remove Twitter account. Please try again.")).

Definition handleSetDefaultAccount (name : string) : M (list account) unit :=
  try_catch
    (setTwitterAccounts
       (fun prev =>
          map (fun account =>
                 mkAccount (username account) (display_name account)
                           (profile_image_url account)
                           (JS.strict_eq_str (username account) name)
                           (is_active account))
              prev) ;;
     emit (Toast_success ("@" ++ name ++ " set as default account")))
    (fun error =>
       emit (Console_error "Error setting default account:" error) ;;
       emit (Toast_error "Failed to set default account. Please try again.")).

(** The accounts marked default, and the invariant of the data model. *)
Definition defaults (cache : list account) : list account :=
  filter is_default cache.

Definition at_most_one_default (cache : list account) : bool :=
  (List.length (defaults cache) <=? 1)%nat.

(** The entries that carry a given username. *)
Definition named (name : string) (cache : list account) : list account :=
  filter (fun account => JS.strict_eq_str (username account) name) cache.

(** The round of a successful link as the page sees it: every result
    the modal hands to [onSuccess] goes through [handleTwitterSuccess]
    (whose closure and state agree on the current list). *)
Definition deliver (fetch : axios_outcome accounts_payload)
           (cache : list account) (results : list value) : list account :=
  fold_left
    (fun c response => state_of (handleTwitterSuccess c response fetch c))
    results cache.

End Settings.

(* ===================================================================== *)
(** ** Scenarios and vocabulary of the specification *)
(* ===================================================================== *)

Module Scenario.
Import TwitterAuthModal.

(** [start()] answered with [{ request_id: "abc123" }]. *)
Definition start_abc123 : axios_outcome value :=
  Resolved (VObj [("request_id", VStr "abc123")]).

Definition after_start : modal :=
  state_of (complete startAuth start_abc123 initial_modal).

(** What the form hands to [onSubmit]: the two required fields and the
    optional code (the empty string when the field is left blank). *)
Definition form (u p : string) (code : value) : value :=
  VObj [("username", VStr u); ("password", VStr p); ("twoFactorToken", code)].

Definition alice_form : value := form "alice" "pw" (VStr "").

(** The link result of the specification, the account nested under
    [account]. *)
Definition nested_result : value :=
  VObj [("success", VBool true);
        ("account", VObj [("username", VStr "alice");
                          ("displayName", VStr "Alice");
                          ("avatarUrl", VStr "http://x/a.png")])].

(** The same account with its fields at the top level and under the
    names [handleTwitterSuccess] reads. *)
Definition flat_result : value :=
  VObj [("success", VBool true);
        ("username", VStr "alice");
        ("display_name", VStr "Alice");
        ("profile_image_url", VStr "http://x/a.png")].

Definition alice (default : bool) : account :=
  mkAccount (VStr "alice") (VStr "Alice") (VStr "http://x/a.png") default true.

Definition bob (default : bool) : account :=
  mkAccount (VStr "bob") (VStr "Bob") (VStr "http://x/b.png") default true.

(** The three ways a call fails at the transport: a non-2xx response
    whose body carries [detail], a non-2xx response without it, and no
    response at all. *)
Inductive failure : Type :=
| Service_detail (msg : string)
| No_detail
| Transport.

(** The error axios rejects with in each case. *)
Definition rejection (f : failure) : value :=
  match f with
  | Service_detail msg =>
      VObj [("message", VStr "Request failed");
            ("response", VObj [("data", VObj [("detail", VStr msg)])])]
  | No_detail =>
      VObj [("message", VStr "Request failed");
            ("response", VObj [("data", VObj [])])]
  | Transport => VObj [("message", VStr "Network Error")]
  end.

(** The message the specification asks for: the service's own words
    when it gave any, else the operation's generic message. *)
Definition message_or (fallback : string) (reported : option string) : value :=
  match reported with
  | Some msg => if msg =? "" then VStr fallback else VStr msg
  | None => VStr fallback
  end.

Definition reported_detail (f : failure) : option string :=
  match f with
  | Service_detail msg => Some msg
  | No_detail | Transport => None
  end.

(** A completed-link response that reports failure. *)
Definition refusal (reported : option string) : value :=
  match reported with
  | Some msg => VObj [("success", VBool false); ("error", VStr msg)]
  | None => VObj [("success", VBool false)]
  end.

(** The modal after a transition to [error] with a message. *)
Definition failed_with (msg : value) (m : modal) : modal :=
  mkModal "error" (requestId m) msg (statusCheckInterval m).

Definition with_step (s : string) (m : modal) : modal :=
  mkModal s (requestId m) (error m) (statusCheckInterval m).

(** The entry with its default flag cleared. *)
Definition not_default (a : account) : account :=
  mkAccount (username a) (display_name a) (profile_image_url a) false
            (is_active a).

(** The requests of the interface table as the program sends them. *)
Definition authenticate_request (rid : string) (credentials : value) : request :=
  mkRequest POST ("/user/auth/twitter/authenticate/" ++ rid) credentials.

Definition delete_request (name : string) : request :=
  mkRequest DELETE ("/user/accounts/" ++ name) VUndefined.

Definition status_request (rid : string) : request :=
  mkRequest GET ("/user/auth/twitter/status/" ++ rid) VUndefined.

(** The status a poll brought back, if it brought one. *)
Definition reported_status (o : axios_outcome value) : option string :=
  match o with
  | Resolved response =>
      match JS.get response "status" with
      | Ok (VStr s) => Some s
      | _ => None
      end
  | Rejected _ => None
  end.

(** Whether the complete-link call came back reporting success. *)
Definition reports_success (o : axios_outcome value) : bool :=
  match o with
  | Resolved response => JS.truthy (JS.get_opt response "success")
  | Rejected _ => false
  end.

(** Whether a list of effects cancels a timer. *)
Definition clears_a_timer (w : list effect) : bool :=
  existsb (fun e => match e with Clear_interval _ => true | _ => false end) w.

End Scenario.

(* ===================================================================== *)
(** ** Object literals with spread *)
(* ===================================================================== *)

Module JSObject.

(** [{ ...props, [k]: v }] on a property list: an existing key keeps its
    place and takes the new value, a new key goes to the end.  (Insertion
    order is the enumeration order as long as no key is an array index;
    lookups do not depend on it.) *)
Fixpoint set_prop (k : string) (v : value) (props : list (string * value))
  : list (string * value) :=
  match props with
  | [] => [(k, v)]
  | (k', v') :: rest =>
      if k' =? k then (k, v) :: rest else (k', v') :: set_prop k v rest
  end.

(** [{ ...props, ...more }]. *)
Definition assign (props more : list (string * value)) : list (string * value) :=
  fold_left (fun acc kv => set_prop (fst kv) (snd kv) acc) more props.

Fixpoint indexed (i : nat) (elems : list value) : list (string * value) :=
  match elems with
  | [] => []
  | x :: rest => (JS.number_to_string (Z.of_nat i), x) :: indexed (S i) rest
  end.

Fixpoint chars (s : string) : list value :=
  match s with
  | EmptyString => []
  | String c rest => VStr (String c EmptyString) :: chars rest
  end.

(** The own enumerable properties [...v] copies: those of an object, the
    elements of an array and the characters of a string under their
    indices (one per code unit, which for ASCII text is one per
    character), nothing for [null], [undefined], a boolean or a number. *)
Definition own (v : value) : list (string * value) :=
  match v with
  | VObj props => props
  | VArr elems => indexed 0 elems
  | VStr s => indexed 0 (chars s)
  | _ => []
  end.

End JSObject.

(** [throw e], and [try { body } finally { fin }]: [fin] runs whether
    [body] returned or threw; a throw of [body] goes on after it unless
    [fin] throws itself. *)
Definition throw {S A} (e : value) : M S A := lift (Throw e).

Definition try_finally {S A} (body : M S A) (fin : M S unit) : M S A :=
  fun s =>
    match body s with
    | (r, s1, w1) =>
        match fin s1 with
        | (Ok _, s2, w2) => (r, s2, (w1 ++ w2)%list)
        | (Throw e, s2, w2) => (Throw e, s2, (w1 ++ w2)%list)
        end
    end.

(* ===================================================================== *)
(** ** [authService]: the session and profile methods (src/unnamed/part_003) *)
(* ===================================================================== *)

Module authServiceUser.

(** The [catch] clause every method ends with:
    [throw new Error(error.response?.data?.detail || fallback)]. *)
Definition fail_with {S A} (fallback : string) (error : value) : M S A :=
  response <- lift (JS.get error "response") ;;
  throw (JS.new_Error
           (JS.or (JS.get_opt (JS.get_opt response "data") "detail")
                  (VStr fallback))).

(** [await api.m(...)] inside a method's [try]: the request goes out and
    the call returns [response.data] or throws what axios rejected with. *)
Definition api {S} (req : request) (o : axios_outcome value) : M S value :=
  emit (Http req) ;;
  lift (match o with
        | Resolved data => Ok data
        | Rejected error => Throw error
        end).

(** [formData.append(name, v)] stores the value converted to a string. *)
Definition append (name : string) (v : value) (formData : list (string * value))
  : list (string * value) :=
  (formData ++ [(name, VStr (JS.to_string v))])%list.

(** The body is the [FormData] as the list of its entries (sent as
    multipart form data). *)
Definition login {S} (credentials : value) (o : axios_outcome value) : M S value :=
  try_catch
    (u <- lift (JS.get credentials "username") ;;
     name <- (if JS.truthy u then ret u
              else lift (JS.get credentials "email")) ;;
     p <- lift (JS.get credentials "password") ;;
     let formData := append "password" p (append "username" name []) in
     api (mkRequest POST "/user/auth/login" (VObj formData)) o)
    (fail_with "Login failed").

Definition register {S} (userData : value) (o : axios_outcome value) : M S value :=
  try_catch
    (e <- lift (JS.get userData "email") ;;
     u <- lift (JS.get userData "username") ;;
     p <- lift (JS.get userData "password") ;;
     n <- lift (JS.get userData "name") ;;
     api (mkRequest POST "/user/auth/register"
                    (VObj [("email", e); ("username", u);
                           ("password", p); ("name", n)])) o)
    (fail_with "Registration failed").

(** [token] is what [localStorage.getItem('token')] answers. *)
Definition logout {S} (token : value) (o : axios_outcome value) : M S value :=
  try_catch
    (api (mkRequest POST "/user/auth/logout" (VObj [("token", token)])) o ;;
     ret (VBool true))
    (fun error =>
       emit (Console_error "Logout error:" error) ;;
       fail_with "Logout failed" error).

Definition getUserProfile {S} (o : axios_outcome value) : M S value :=
  try_catch
    (api (mkRequest GET "/user/profile" VUndefined) o)
    (fail_with "Failed to get user profile").

Definition updateUserSettings {S} (settings : value) (o : axios_outcome value)
  : M S value :=
  try_catch
    (api (mkRequest POST "/user/settings" settings) o)
    (fail_with "Failed to update user settings").

Definition createTonePreset {S} (preset : value) (o : axios_outcome value)
  : M S value :=
  try_catch
    (api (mkRequest POST "/user/tone-presets" preset) o)
    (fail_with "Failed to create tone preset").

Definition deleteTonePreset {S} (presetName : value) (o : axios_outcome value)
  : M S value :=
  try_catch
    (api (mkRequest DELETE ("/user/tone-presets/" ++ JS.to_string presetName)
                    VUndefined) o)
    (fail_with "Failed to delete tone preset").

Definition addTwitterAccount {S} (account : value) (o : axios_outcome value)
  : M S value :=
  try_catch
    (api (mkRequest POST "/user/accounts" account) o)
    (fail_with "Failed to add Twitter account").

(** The methods above, each with sample arguments left to the caller. *)
Definition methods {S} (arg : value) (o : axios_outcome value) : list (M S value) :=
  [login arg o; register arg o; logout arg o; getUserProfile o;
   updateUserSettings arg o; createTonePreset arg o; deleteTonePreset arg o;
   addTwitterAccount arg o].

End authServiceUser.

(* ===================================================================== *)
(** ** [AuthProvider]  (src/unnamed/part_002) *)
(* ===================================================================== *)

Module AuthProvider.

(** The provider's four [useState] cells and the [token] entry of
    [localStorage] ([null] when there is none, else a string). *)
Record session : Type := mkSession {
  currentUser : value;
  isAuthenticated : bool;
  loading : bool;
  error : value;
  token : value
}.

Definition initial_session (stored : value) : session :=
  mkSession VNull false true VNull stored.

Definition setCurrentUser (f : value -> value) : M session unit :=
  update (fun s => mkSession (f (currentUser s)) (isAuthenticated s) (loading s)
                             (error s) (token s)).
Definition setIsAuthenticated (b : bool) : M session unit :=
  update (fun s => mkSession (currentUser s) b (loading s) (error s) (token s)).
Definition setLoading (b : bool) : M session unit :=
  update (fun s => mkSession (currentUser s) (isAuthenticated s) b (error s)
                             (token s)).
Definition setError (e : value) : M session unit :=
  update (fun s => mkSession (currentUser s) (isAuthenticated s) (loading s) e
                             (token s)).

(** [localStorage.setItem('token', v)] stores the string of [v];
    [localStorage.removeItem('token')]. *)
Definition setItem_token (v : value) : M session unit :=
  update (fun s => mkSession (currentUser s) (isAuthenticated s) (loading s)
                             (error s) (VStr (JS.to_string v))).
Definition removeItem_token : M session unit :=
  update (fun s => mkSession (currentUser s) (isAuthenticated s) (loading s)
                             (error s) VNull).

(** The [useEffect] run once on mount; [o] settles the profile request
    when one is made. *)
Definition on_mount (o : axios_outcome value) : M session unit :=
  t <- read token ;;
  if JS.truthy t then
    try_finally
      (try_catch
         (userData <- authServiceUser.getUserProfile o ;;
          setCurrentUser (fun _ => userData) ;;
          setIsAuthenticated true)
         (fun err =>
            emit (Console_error "Failed to get user profile:" err) ;;
            removeItem_token))
      (setLoading false)
  else setLoading false.

Definition login (credentials : value) (o : axios_outcome value)
  : M session value :=
  try_catch
    (setError VNull ;;
     response <- authServiceUser.login credentials o ;;
     access_token <- lift (JS.get response "access_token") ;;
     setItem_token access_token ;;
     user <- lift (JS.get response "user") ;;
     setCurrentUser (fun _ => user) ;;
     setIsAuthenticated true ;;
     ret response)
    (fun err =>
       m <- lift (JS.get err "message") ;;
       setError (JS.or m (VStr "Failed to login")) ;;
       throw err).

Definition register (userData : value) (o : axios_outcome value)
  : M session value :=
  try_catch
    (setError VNull ;;
     response <- authServiceUser.register userData o ;;
     access_token <- lift (JS.get response "access_token") ;;
     setItem_token access_token ;;
     user <- lift (JS.get response "user") ;;
     setCurrentUser (fun _ => user) ;;
     setIsAuthenticated true ;;
     ret response)
    (fun err =>
       m <- lift (JS.get err "message") ;;
       setError (JS.or m (VStr "Failed to register")) ;;
       throw err).

Definition logout (o : axios_outcome value) : M session unit :=
  try_catch
    (t <- read token ;;
     authServiceUser.logout t o ;;
     removeItem_token ;;
     setCurrentUser (fun _ => VNull) ;;
     setIsAuthenticated false)
    (fun err =>
       emit (Console_error "Logout error:" err) ;;
       removeItem_token ;;
       setCurrentUser (fun _ => VNull) ;;
       setIsAuthenticated false).

Definition updateUserProfile (userData : value) : M session unit :=
  setCurrentUser
    (fun prevUser =>
       VObj (JSObject.assign (JSObject.own prevUser) (JSObject.own userData))).

End AuthProvider.

(* ===================================================================== *)
(** ** The Settings page: loading and the settings form
       (src/frontend/src/pages/Login.js, third component) *)
(* ===================================================================== *)

Module SettingsPage.

(** The page's [useState] cells; [settings] is always an object, held as
    its properties. *)
Record page : Type := mkPage {
  loading : bool;
  saving : bool;
  showTwitterModal : bool;
  twitterAccounts : list account;
  settings : list (string * value)
}.

Definition initial_page : page :=
  mkPage true false false []
         [("accountName", VStr "");
          ("email", VStr "");
          ("notifications",
           VObj [("email", VBool true); ("push", VBool true);
                 ("scheduledPosts", VBool true); ("mentions", VBool true)]);
          ("apiKey", VStr "");
          ("darkMode", VBool false);
          ("autoPost", VBool false)].

Definition setLoading (b : bool) : M page unit :=
  update (fun s => mkPage b (saving s) (showTwitterModal s) (twitterAccounts s)
                          (settings s)).
Definition setSaving (b : bool) : M page unit :=
  update (fun s => mkPage (loading s) b (showTwitterModal s) (twitterAccounts s)
                          (settings s)).
Definition setTwitterAccounts (f : list account -> list account) : M page unit :=
  update (fun s => mkPage (loading s) (saving s) (showTwitterModal s)
                          (f (twitterAccounts s)) (settings s)).
Definition setSettings (f : list (string * value) -> list (string * value))
  : M page unit :=
  update (fun s => mkPage (loading s) (saving s) (showTwitterModal s)
                          (twitterAccounts s) (f (settings s))).

Definition mock_settings : list (string * value) :=
  [("accountName", VStr "Demo User");
   ("email", VStr "demo@example.com");
   ("notifications",
    VObj [("email", VBool true); ("push", VBool true);
          ("scheduledPosts", VBool true); ("mentions", VBool false)]);
   ("apiKey", VStr "sk-1234567890abcdefghijklmnopqrstuvwxyz");
   ("darkMode", VBool false);
   ("autoPost", VBool false)].

Definition mock_account : account :=
  mkAccount (VStr "twitteruser1") (VStr "Twitter User")
            (VStr Settings.placeholder_image) true true.

(** [fetchData], run once on mount.  (Its first statement only waits
    600 ms.) *)
Definition fetchData (o : axios_outcome accounts_payload) : M page unit :=
  try_catch
    (setSettings (fun _ => mock_settings) ;;
     try_catch
       (accounts <- authService.await authService.getTwitterAccounts o ;;
        match accounts with
        | Some (a :: l) => setTwitterAccounts (fun _ => a :: l)
        | _ => setTwitterAccounts (fun _ => [mock_account])
        end)
       (fun error =>
          emit (Console_error "Error fetching Twitter accounts:" error) ;;
          setTwitterAccounts (fun _ => [mock_account])) ;;
     setLoading false)
    (fun error =>
       emit (Console_error "Error fetching settings:" error) ;;
       setLoading false).

(** The three [onChange] handlers, given [e.target.name] and
    [e.target.value] or [e.target.checked]. *)
Definition handleInputChange (name : string) (v : value) : M page unit :=
  setSettings (fun prev => JSObject.set_prop name v prev).

Definition handleNotificationChange (name : string) (checked : bool)
  : M page unit :=
  setSettings
    (fun prev =>
       JSObject.set_prop "notifications"
         (VObj (JSObject.set_prop name (VBool checked)
                  (JSObject.own (JS.lookup "notifications" prev))))
         prev).

Definition handleToggleChange (name : string) (checked : bool) : M page unit :=
  setSettings (fun prev => JSObject.set_prop name (VBool checked) prev).

(** [handleSubmit] of the settings form.  (Its [try] block only waits
    1000 ms before the toast.) *)
Definition handleSubmit : M page unit :=
  setSaving true ;;
  try_finally
    (try_catch
       (emit (Toast_success "Settings saved successfully!"))
       (fun error =>
          emit (Console_error "Error saving settings:" error) ;;
          emit (Toast_error "Failed to save settings. Please try again.")))
    (setSaving false).

(** What the user can do to the settings form. *)
Inductive edit : Type :=
| Input (name : string) (v : value)
| Notification (name : string) (checked : bool)
| Toggle (name : string) (checked : bool)
| Save.

Definition perform (e : edit) : M page unit :=
  match e with
  | Input name v => handleInputChange name v
  | Notification name checked => handleNotificationChange name checked
  | Toggle name checked => handleToggleChange name checked
  | Save => handleSubmit
  end.

Fixpoint perform_all (edits : list edit) : M page unit :=
  match edits with
  | [] => ret tt
  | e :: rest => perform e ;; perform_all rest
  end.

(** [settings.notifications.k] as the checkboxes read it. *)
Definition notification (k : string) (props : list (string * value)) : value :=
  JS.get_opt (JS.lookup "notifications" props) k.

End SettingsPage.

(* ===================================================================== *)
(** ** Invariants of the modal's runs *)
(* ===================================================================== *)

Module FlowInvariant.
Import TwitterAuthModal Flow.

Definition is_clear (e : effect) : bool :=
  match e with Clear_interval _ => true | _ => false end.

Definition is_start (r : request) : bool :=
  url r =? url (authService.sent authService.startTwitterAuth).

(** How many start requests a trace holds. *)
Definition starts (w : list effect) : nat :=
  List.length (filter is_start (requests w)).

(** A continuation that, resumed, sends no request, clears no timer,
    leaves [statusCheckInterval] alone and never puts the modal back in
    step [initial]. *)
Definition tame (k : axios_outcome value -> M modal unit) : Prop :=
  forall o m,
    requests (effects_of (k o m)) = []
    /\ existsb is_clear (effects_of (k o m)) = false
    /\ statusCheckInterval (state_of (k o m)) = statusCheckInterval m
    /\ step (state_of (k o m)) <> "initial".

(** What every state reached from [init] satisfies. *)
Definition steady (s : system) : Prop :=
  statusCheckInterval (ui s) = VNull
  /\ Forall tame (inflight s)
  /\ Forall (fun r => method r = POST) (requests (trace s))
  /\ existsb is_clear (trace s) = false.

(** What a handler must do for [handle] to keep a state steady. *)
Definition behaved (h : M modal suspended) : Prop :=
  forall m,
    statusCheckInterval m = VNull ->
    statusCheckInterval (state_of (h m)) = VNull
    /\ Forall (fun r => method r = POST) (requests (effects_of (h m)))
    /\ existsb is_clear (effects_of (h m)) = false
    /\ (forall k, outcome_of (h m) = Ok (Awaiting k) -> tame k).

End FlowInvariant.

(* ===================================================================== *)
(** ** General facts about the monad and about JavaScript values *)
(* ===================================================================== *)

Lemma requests_app (w1 w2 : list effect) :
  requests (w1 ++ w2) = (requests w1 ++ requests w2)%list.
Proof.
  induction w1 as [|e w1 IH]; simpl; [reflexivity|].
  destruct e; simpl; rewrite IH; reflexivity.
Qed.

(** Every value [rethrow] throws is an object (an [Error] or a
    [TypeError]) with a [message], so reading [err.message] in a handler
    cannot throw. *)
Lemma rethrow_throws_object {A} (fallback : string) (o : axios_outcome A) (e : value) :
  authService.rethrow fallback o = Throw e ->
  exists msg, e = VObj [("message", VStr msg)].
Proof.
  destruct o as [data|err]; simpl; [discriminate|].
  destruct err; simpl; intros H; inversion H; subst; eexists; reflexivity.
Qed.

(** Case analysis of a handler run: on the value a property is read
    from, on how the request settled, on the tests the handler makes. *)
Ltac js_case :=
  match goal with
  | |- context [JS.get ?v _] => is_var v; destruct v
  | |- context [match ?o with Resolved _ => _ | Rejected _ => _ end] =>
      is_var o; destruct o
  | |- context [if JS.truthy ?v then _ else _] => destruct (JS.truthy v) eqn:?
  | |- context [if JS.strict_eq_str ?v ?s then _ else _] =>
      destruct (JS.strict_eq_str v s) eqn:?
  | |- context [if ?b then _ else _] => is_var b; destruct b
  end.
Ltac js_run := repeat (simpl; js_case); simpl.
Ltac js_unfold :=
  unfold TwitterAuthModal.complete, TwitterAuthModal.startAuth,
    TwitterAuthModal.onSubmit, TwitterAuthModal.checkStatus,
    TwitterAuthModal.try_await, try_catch,
    bind, emit, lift, ret, read, when, outcome_of, state_of, effects_of,
    TwitterAuthModal.setError, TwitterAuthModal.setRequestId,
    TwitterAuthModal.setStep, update, authService.settle,
    authService.startTwitterAuth, authService.completeTwitterAuth,
    authService.checkTwitterAuthStatus, authService.rethrow.

(* ===================================================================== *)
(** ** [hasLinkedTwitterAccount] *)
(* ===================================================================== *)

(** C10, as stated, fails: when the fetch resolves with [null] (the list
    is absent) the function returns [null], not [false]. *)
Lemma hasLinked_null_counterexample :
  outcome_of (authService.hasLinkedTwitterAccount (Resolved None) tt) = Ok VNull
  /\ VNull <> VBool false.
Proof. split; [reflexivity | discriminate]. Qed.

(** C10 (amended): [hasLinkedTwitterAccount] never throws; it returns
    [true] exactly when the fetch resolves with a non-empty list, [false]
    when the list is empty or the fetch rejects with any error, and the
    falsy payload itself ([null]) when the list is absent; so its result
    is truthy exactly for a non-empty list. *)
Theorem hasLinked_result (S : Type) (o : axios_outcome accounts_payload) (s : S) :
  let run := authService.hasLinkedTwitterAccount o s in
  outcome_of run =
    Ok (match o with
        | Resolved (Some (_ :: _)) => VBool true
        | Resolved (Some []) => VBool false
        | Resolved None => VNull
        | Rejected _ => VBool false
        end)
  /\ (outcome_of run = Ok (VBool true)
      <-> exists a l, o = Resolved (Some (a :: l)))
  /\ (forall v, outcome_of run = Ok v ->
      JS.truthy v = true <-> exists a l, o = Resolved (Some (a :: l))).
Proof.
  assert (Hrun : outcome_of (authService.hasLinkedTwitterAccount o s) =
    Ok (match o with
        | Resolved (Some (_ :: _)) => VBool true
        | Resolved (Some []) => VBool false
        | Resolved None => VNull
        | Rejected _ => VBool false
        end)).
  { destruct o as [[[|a l]|]|err]; try reflexivity.
    unfold authService.hasLinkedTwitterAccount, authService.await, try_catch,
      bind, emit, lift, outcome_of; simpl.
    destruct (JS.get err "response"); reflexivity. }
  cbv zeta. rewrite Hrun. split; [reflexivity|]. split.
  - split.
    + destruct o as [[[|a l]|]|err]; intros H; try discriminate.
      exists a, l; reflexivity.
    + intros (a & l & ->). reflexivity.
  - intros v Hv. inversion Hv; subst v; clear Hv. split.
    + destruct o as [[[|a l]|]|err]; simpl; intros H; try discriminate.
      exists a, l; reflexivity.
    + intros (a & l & ->). reflexivity.
Qed.

(* ===================================================================== *)
(** ** The modal's handlers *)
(* ===================================================================== *)

Section Handlers.
Import TwitterAuthModal Scenario.

(** C9, as stated, fails: the request goes to the [twitter] path, not to
    [/user/auth/external/authenticate/{request_id}], and its body is keyed
    [username], [password] (and [two_factor_token]), not [identifier],
    [secret], [second_factor]. *)
Lemma complete_link_counterexample :
  exists req,
    requests (effects_of (onSubmit true alice_form after_start)) = [req]
    /\ url req = "/user/auth/twitter/authenticate/abc123"
    /\ url req <> "/user/auth/external/authenticate/abc123"
    /\ JS.keys (JS.json (body req)) = ["username"; "password"]
    /\ ~ In "identifier" (JS.keys (JS.json (body req))).
Proof.
  eexists. split; [reflexivity|]. simpl.
  repeat split; try reflexivity; try discriminate.
  intros [H|[H|[]]]; discriminate.
Qed.

(** C9 (amended): every submission of the form sends exactly one request,
    a POST to [/user/auth/twitter/authenticate/{request_id}], whose JSON
    body has exactly the fields [username] and [password] taken from the
    form, and [two_factor_token] when (and only when) a non-empty code was
    entered. *)
Theorem complete_link_request (onSuccess : bool) (u p : string) (code : value)
        (m : modal) :
  let sent_body :=
    VObj [("username", VStr u); ("password", VStr p);
          ("two_factor_token", JS.or code VUndefined)] in
  requests (effects_of (onSubmit onSuccess (form u p code) m)) =
    [mkRequest POST
               ("/user/auth/twitter/authenticate/" ++ JS.to_string (requestId m))
               sent_body]
  /\ JS.json sent_body =
       VObj ([("username", VStr u); ("password", VStr p)]
             ++ (if JS.truthy code then [("two_factor_token", JS.json code)]
                 else []))%list.
Proof.
  split.
  - destruct m; reflexivity.
  - unfold JS.or. destruct code; simpl; try reflexivity.
    + destruct b; reflexivity.
    + destruct (n =? 0)%Z; reflexivity.
    + destruct (s =? ""); reflexivity.
Qed.

(** No handler of the modal lets an exception escape, whatever the form
    data and however its request settles. *)
Lemma startAuth_never_throws (o : axios_outcome value) (m : modal) :
  outcome_of (complete startAuth o m) = Ok tt.
Proof. js_unfold. js_run; reflexivity. Qed.

Lemma onSubmit_never_throws (onSuccess : bool) (data : value)
      (o : axios_outcome value) (m : modal) :
  outcome_of (complete (onSubmit onSuccess data) o m) = Ok tt.
Proof. js_unfold. js_run; reflexivity. Qed.

Lemma checkStatus_never_throws (onSuccess : bool) (o : axios_outcome value)
      (m : modal) :
  outcome_of (complete (checkStatus onSuccess) o m) = Ok tt.
Proof. js_unfold. js_run; reflexivity. Qed.

(** A failed call leaves the modal in [error] with the service's words or
    the generic message, and hands nothing to [onSuccess]. *)
Lemma startAuth_rejected (f : failure) (m : modal) :
  let run := complete startAuth (Rejected (rejection f)) m in
  state_of run
  = failed_with (message_or "Failed to start Twitter authentication"
                            (reported_detail f)) m
  /\ emitted (effects_of run) = [].
Proof.
  destruct f as [msg| |]; try (split; reflexivity).
  js_unfold. unfold message_or, JS.or, failed_with. simpl.
  destruct (msg =? "") eqn:E; simpl; [split; reflexivity|].
  rewrite E. split; reflexivity.
Qed.

Lemma onSubmit_rejected (onSuccess : bool) (u p : string) (code : value)
      (f : failure) (m : modal) :
  let run := complete (onSubmit onSuccess (form u p code))
                      (Rejected (rejection f)) m in
  state_of run
  = failed_with (message_or "Failed to complete Twitter authentication"
                            (reported_detail f)) m
  /\ emitted (effects_of run) = [].
Proof.
  destruct f as [msg| |]; try (split; reflexivity).
  js_unfold. unfold message_or, JS.or, failed_with. simpl.
  destruct (msg =? "") eqn:E; simpl; [split; reflexivity|].
  rewrite E. split; reflexivity.
Qed.

Lemma onSubmit_refused (onSuccess : bool) (u p : string) (code : value)
      (reported : option string) (m : modal) :
  let run := complete (onSubmit onSuccess (form u p code))
                      (Resolved (refusal reported)) m in
  state_of run = failed_with (message_or "Authentication failed" reported) m
  /\ emitted (effects_of run) = [].
Proof.
  destruct reported as [msg|]; try (split; reflexivity).
  js_unfold. unfold message_or, JS.or, failed_with. simpl.
  destruct (msg =? "") eqn:E; simpl; split; reflexivity.
Qed.

(** Whatever a rejected start, or a submit that does not report success,
    carries, the modal ends in [error] and [onSuccess] is not called. *)
Lemma startAuth_rejected_any (err : value) (m : modal) :
  let run := complete startAuth (Rejected err) m in
  step (state_of run) = "error" /\ emitted (effects_of run) = [].
Proof. js_unfold. js_run; split; reflexivity. Qed.

Lemma onSubmit_unsuccessful_any (onSuccess : bool) (data : value)
      (o : axios_outcome value) (m : modal) :
  reports_success o = false ->
  let run := complete (onSubmit onSuccess data) o m in
  step (state_of run) = "error" /\ emitted (effects_of run) = [].
Proof.
  unfold reports_success, JS.get_opt. js_unfold. intros H.
  js_run; simpl in *; try (split; reflexivity); congruence.
Qed.

(** C7: every failure of [start()] or [submit()] -- a non-2xx response
    with a [detail], a failure with no [detail] or no response at all and,
    for [submit()], a response [{success:false, error?}] -- puts the modal
    in step [error] with the service's message verbatim when it gave a
    (non-empty) one and the operation's generic message otherwise; nothing
    is handed to [onSuccess], so the account list is unchanged; and no
    run of either handler throws, whatever it is given. *)
Theorem link_failures_end_in_error_state
        (onSuccess : bool) (u p : string) (code : value) (m : modal)
        (cache : list account) (fetch : axios_outcome accounts_payload) :
  (forall f : failure,
      let run := complete startAuth (Rejected (rejection f)) m in
      state_of run
      = failed_with (message_or "Failed to start Twitter authentication"
                                (reported_detail f)) m
      /\ Settings.deliver fetch cache (emitted (effects_of run)) = cache)
  /\ (forall f : failure,
      let run := complete (onSubmit onSuccess (form u p code))
                          (Rejected (rejection f)) m in
      state_of run
      = failed_with (message_or "Failed to complete Twitter authentication"
                                (reported_detail f)) m
      /\ Settings.deliver fetch cache (emitted (effects_of run)) = cache)
  /\ (forall reported : option string,
      let run := complete (onSubmit onSuccess (form u p code))
                          (Resolved (refusal reported)) m in
      state_of run = failed_with (message_or "Authentication failed" reported) m
      /\ Settings.deliver fetch cache (emitted (effects_of run)) = cache)
  /\ (forall err,
      let run := complete startAuth (Rejected err) m in
      step (state_of run) = "error"
      /\ Settings.deliver fetch cache (emitted (effects_of run)) = cache)
  /\ (forall data o,
      reports_success o = false ->
      let run := complete (onSubmit onSuccess data) o m in
      step (state_of run) = "error"
      /\ Settings.deliver fetch cache (emitted (effects_of run)) = cache)
  /\ (forall o, outcome_of (complete startAuth o m) = Ok tt)
  /\ (forall data o,
      outcome_of (complete (onSubmit onSuccess data) o m) = Ok tt).
Proof.
  split; [|split; [|split; [|split; [|split; [|split]]]]].
  - intros f. cbv zeta. split; [apply startAuth_rejected|].
    destruct (startAuth_rejected f m) as [_ ->]. reflexivity.
  - intros f. cbv zeta. split; [apply onSubmit_rejected|].
    destruct (onSubmit_rejected onSuccess u p code f m) as [_ ->]. reflexivity.
  - intros reported. cbv zeta. split; [apply onSubmit_refused|].
    destruct (onSubmit_refused onSuccess u p code reported m) as [_ ->].
    reflexivity.
  - intros err. cbv zeta.
    destruct (startAuth_rejected_any err m) as [H ->].
    split; [exact H|reflexivity].
  - intros data o Ho. cbv zeta.
    destruct (onSubmit_unsuccessful_any onSuccess data o m Ho) as [H ->].
    split; [exact H|reflexivity].
  - intros o. apply startAuth_never_throws.
  - intros data o. apply onSubmit_never_throws.
Qed.

Lemma link_failures_end_in_error_state_witness :
  let run := complete (onSubmit true alice_form)
                      (Resolved (refusal (Some "bad credentials")))
                      after_start in
  reports_success (Resolved (refusal (Some "bad credentials"))) = false
  /\ step (state_of run) = "error"
  /\ Settings.deliver (Rejected (rejection Transport)) [alice true]
                      (emitted (effects_of run)) = [alice true].
Proof.
  split; [reflexivity|].
  destruct (link_failures_end_in_error_state true "alice" "pw" (VStr "")
              after_start [alice true] (Rejected (rejection Transport)))
    as (_ & _ & _ & _ & H & _).
  apply (H alice_form (Resolved (refusal (Some "bad credentials"))) eq_refl).
Defined.

(** The spec's example of C7: after [start()] stored ["abc123"], the
    service answers [{success:false, error:"bad credentials"}]. *)
Example bad_credentials_example :
  let run := complete (onSubmit true alice_form)
                      (Resolved (refusal (Some "bad credentials")))
                      after_start in
  step (state_of run) = "error"
  /\ error (state_of run) = VStr "bad credentials"
  /\ emitted (effects_of run) = [].
Proof. repeat split. Qed.

Lemma clear_removes (id : Z) (l : list Z) : ~ In id (Flow.clear (VNum id) l).
Proof.
  simpl. intros H. apply filter_In in H. destruct H as [_ H].
  rewrite Z.eqb_refl in H. discriminate.
Qed.

(** C6: [checkStatus] queries the status of the stored request id; on
    [completed] it clears the interval it tracks, moves to [success] and
    hands the response to [onSuccess]; on [failed] it clears the interval
    and moves to [error] with the returned message or the generic one; in
    every other case (another status, none, a failed query) the modal is
    unchanged and no timer is cleared.  It never throws. *)
Theorem checkStatus_transitions (onSuccess : bool) (m : modal)
        (o : axios_outcome value) :
  let run := complete (checkStatus onSuccess) o m in
  outcome_of run = Ok tt
  /\ requests (effects_of run) = [status_request (JS.to_string (requestId m))]
  /\ (forall response,
      o = Resolved response -> reported_status o = Some "completed" ->
      state_of run = with_step "success" m
      /\ effects_of run =
           ([Http (status_request (JS.to_string (requestId m)));
             Clear_interval (statusCheckInterval m)]
            ++ (if onSuccess then [On_success response] else []))%list
      /\ (forall id s, statusCheckInterval m = VNum id ->
           ~ In id (Flow.timers (fold_left Flow.absorb (effects_of run) s))))
  /\ (forall response,
      o = Resolved response -> reported_status o = Some "failed" ->
      state_of run
      = failed_with (JS.or (JS.get_opt response "error")
                           (VStr "Authentication failed")) m
      /\ effects_of run =
           [Http (status_request (JS.to_string (requestId m)));
            Clear_interval (statusCheckInterval m)]
      /\ (forall id s, statusCheckInterval m = VNum id ->
           ~ In id (Flow.timers (fold_left Flow.absorb (effects_of run) s))))
  /\ (reported_status o <> Some "completed" ->
      reported_status o <> Some "failed" ->
      state_of run = m
      /\ clears_a_timer (effects_of run) = false
      /\ emitted (effects_of run) = []).
Proof.
  cbv zeta. split; [apply checkStatus_never_throws|]. split.
  { js_unfold. js_run; reflexivity. }
  split; [|split].
  - intros response -> Hst. unfold reported_status in Hst.
    destruct (JS.get response "status") as [st|] eqn:Hget; [|discriminate].
    destruct st; try discriminate. inversion Hst; subst s; clear Hst.
    assert (He : effects_of (complete (checkStatus onSuccess) (Resolved response) m)
                 = ([Http (status_request (JS.to_string (requestId m)));
                     Clear_interval (statusCheckInterval m)]
                    ++ (if onSuccess then [On_success response] else []))%list).
    { js_unfold. rewrite Hget. simpl. destruct onSuccess; destruct m; reflexivity. }
    split; [|split].
    + js_unfold. rewrite Hget. simpl. destruct onSuccess; destruct m; reflexivity.
    + exact He.
    + intros id s Hid. rewrite He, Hid.
      destruct onSuccess; simpl; apply clear_removes.
  - intros response -> Hst. unfold reported_status in Hst.
    destruct (JS.get response "status") as [st|] eqn:Hget; [|discriminate].
    destruct st; try discriminate. inversion Hst; subst s; clear Hst.
    assert (Herr : JS.get response "error" = Ok (JS.get_opt response "error")).
    { destruct response; try discriminate; reflexivity. }
    assert (He : effects_of (complete (checkStatus onSuccess) (Resolved response) m)
                 = [Http (status_request (JS.to_string (requestId m)));
                    Clear_interval (statusCheckInterval m)]).
    { js_unfold. rewrite Hget. simpl. rewrite Herr. destruct m; reflexivity. }
    split; [|split].
    + js_unfold. rewrite Hget. simpl. rewrite Herr. destruct m; reflexivity.
    + exact He.
    + intros id s Hid. rewrite He, Hid. simpl. apply clear_removes.
  - intros Hc Hf. unfold reported_status in Hc, Hf.
    destruct o as [response|err].
    + destruct (JS.get response "status") as [st|e] eqn:Hget.
      * assert (Hno : JS.strict_eq_str st "completed" = false
                      /\ JS.strict_eq_str st "failed" = false).
        { destruct st; simpl; try (split; reflexivity).
          split; apply String.eqb_neq; congruence. }
        destruct Hno as [H1 H2].
        js_unfold. rewrite Hget. simpl. rewrite H1, H2. simpl.
        destruct m; repeat split.
      * js_unfold. rewrite Hget. simpl. destruct m; repeat split.
    + js_unfold. simpl. destruct (JS.get err "response"); simpl;
        destruct m; repeat split.
Qed.

Lemma checkStatus_transitions_witness :
  let m := mkModal "processing" (VStr "abc123") VNull (VNum 7) in
  let response := VObj [("status", VStr "completed")] in
  let run := complete (checkStatus true) (Resolved response) m in
  state_of run = with_step "success" m
  /\ effects_of run =
       [Http (status_request "abc123"); Clear_interval (VNum 7);
        On_success response]
  /\ ~ In 7%Z (Flow.timers
                 (fold_left Flow.absorb (effects_of run)
                            (Flow.mkSystem m true [] [7%Z] 8 []))).
Proof.
  cbv zeta.
  destruct (checkStatus_transitions true
              (mkModal "processing" (VStr "abc123") VNull (VNum 7))
              (Resolved (VObj [("status", VStr "completed")])))
    as (_ & _ & Hdone & _).
  destruct (Hdone _ eq_refl eq_refl) as (Hs & He & Ht).
  split; [exact Hs|]. split; [exact He|].
  apply (Ht 7%Z _ eq_refl).
Defined.

End Handlers.

(* ===================================================================== *)
(** ** The account list of the Settings page *)
(* ===================================================================== *)

Section AccountList.
Import Settings Scenario.

Ltac settings_unfold :=
  unfold handleTwitterSuccess, handleRemoveTwitterAccount,
    handleSetDefaultAccount, setTwitterAccounts, authService.await,
    authService.settle, authService.getTwitterAccounts,
    authService.removeTwitterAccount, authService.rethrow,
    try_catch, bind, emit, lift, ret, read, when, update,
    outcome_of, state_of, effects_of.

(** What each handler leaves in [twitterAccounts]. *)
Lemma handleSetDefaultAccount_state (name : string) (cache : list account) :
  state_of (handleSetDefaultAccount name cache)
  = map (fun a => mkAccount (username a) (display_name a) (profile_image_url a)
                            (JS.strict_eq_str (username a) name) (is_active a))
        cache.
Proof. reflexivity. Qed.

Lemma handleRemoveTwitterAccount_state (confirmed : bool) (name : string)
      (o : axios_outcome value) (cache : list account) :
  state_of (handleRemoveTwitterAccount confirmed name o cache)
  = match confirmed, o with
    | true, Resolved _ =>
        filter (fun a => negb (JS.strict_eq_str (username a) name)) cache
    | _, _ => cache
    end.
Proof.
  destruct confirmed; [|reflexivity].
  destruct o as [data|err]; [reflexivity|].
  settings_unfold. simpl. destruct (JS.get err "response"); reflexivity.
Qed.

Lemma handleRemoveTwitterAccount_requests (confirmed : bool) (name : string)
      (o : axios_outcome value) (cache : list account) :
  requests (effects_of (handleRemoveTwitterAccount confirmed name o cache))
  = if confirmed then [delete_request name] else [].
Proof.
  destruct confirmed; [|reflexivity].
  destruct o as [data|err]; [reflexivity|].
  settings_unfold. simpl. destruct (JS.get err "response"); reflexivity.
Qed.

(** After a successful link the list is the freshly fetched one when the
    fetch brought a non-empty list; otherwise it is the old list, with one
    entry appended when the result has a truthy [username]. *)
Lemma handleTwitterSuccess_state (twitterAccounts : list account)
      (response : value) (fetch : axios_outcome accounts_payload)
      (cache : list account) :
  state_of (handleTwitterSuccess twitterAccounts response fetch cache)
  = match fetch with
    | Resolved (Some (a :: l)) => a :: l
    | _ =>
        if JS.truthy response && JS.truthy (JS.get_opt response "username")
        then (cache ++ [mkAccount
                          (JS.get_opt response "username")
                          (JS.or (JS.get_opt response "display_name")
                                 (JS.get_opt response "username"))
                          (JS.or (JS.get_opt response "profile_image_url")
                                 (VStr placeholder_image))
                          (Nat.eqb (List.length twitterAccounts) 0) true])%list
        else cache
    end.
Proof.
  settings_unfold.
  destruct fetch as [[[|a l]|]|err]; simpl;
    try destruct (JS.get err "response"); simpl;
    destruct response as [| |b|n|s|elems|props]; simpl; try reflexivity;
    repeat match goal with
           | |- context [if ?c then _ else _] => destruct c eqn:?
           end; simpl in *; try reflexivity; try congruence.
Qed.

(** Counting defaults through [filter], [map] and [++]. *)
Lemma defaults_filter_le (f : account -> bool) (l : list account) :
  List.length (defaults (filter f l)) <= List.length (defaults l).
Proof.
  unfold defaults. induction l as [|a l IH]; simpl; [lia|].
  destruct (f a); simpl; destruct (is_default a); simpl; lia.
Qed.

Lemma defaults_after_setDefault (name : string) (l : list account) :
  List.length (defaults (state_of (handleSetDefaultAccount name l)))
  = List.length (named name l).
Proof.
  rewrite handleSetDefaultAccount_state. unfold defaults, named.
  induction l as [|a l IH]; simpl; [reflexivity|].
  destruct (JS.strict_eq_str (username a) name); simpl; rewrite IH; reflexivity.
Qed.

Lemma defaults_app (l1 l2 : list account) :
  defaults (l1 ++ l2) = (defaults l1 ++ defaults l2)%list.
Proof. unfold defaults. apply filter_app. Qed.

Lemma setDefault_absent_state (name : string) (l : list account) :
  named name l = [] ->
  state_of (handleSetDefaultAccount name l) = map not_default l.
Proof.
  rewrite handleSetDefaultAccount_state. unfold named, not_default.
  induction l as [|a l IH]; simpl; [reflexivity|].
  destruct (JS.strict_eq_str (username a) name); [discriminate|].
  intros H. rewrite (IH H). reflexivity.
Qed.

Lemma not_default_fixpoint (l : list account) :
  map not_default l = l <-> defaults l = [].
Proof.
  unfold defaults, not_default. induction l as [|a l IH]; simpl; [tauto|].
  destruct a as [u d i def act]; simpl. destruct def; split; intros H;
    try discriminate.
  - injection H as Htail. apply (proj1 IH Htail).
  - f_equal. apply (proj2 IH H).
Qed.

(** C3, as stated, fails: [setDefault("bob")] on a list that holds only
    [alice], marked default, clears alice's flag. *)
Lemma setDefault_absent_counterexample :
  let cache := [alice true] in
  named "bob" cache = []
  /\ state_of (handleSetDefaultAccount "bob" cache) = [alice false]
  /\ state_of (handleSetDefaultAccount "bob" cache) <> cache.
Proof. repeat split. discriminate. Qed.

(** C3 (amended): [setDefault(username)] with a username that no entry
    carries keeps the entries, their order and every other field, and
    clears [is_default] on all of them; it leaves the list as it was
    exactly when no entry was marked default. *)
Theorem setDefault_absent_clears_flags (name : string) (cache : list account) :
  named name cache = [] ->
  outcome_of (handleSetDefaultAccount name cache) = Ok tt
  /\ state_of (handleSetDefaultAccount name cache) = map not_default cache
  /\ defaults (state_of (handleSetDefaultAccount name cache)) = []
  /\ (state_of (handleSetDefaultAccount name cache) = cache
      <-> defaults cache = []).
Proof.
  intros Habsent. split; [reflexivity|].
  rewrite (setDefault_absent_state name cache Habsent).
  split; [reflexivity|]. split.
  - unfold defaults. induction cache as [|a l IH]; simpl; [reflexivity|].
    apply IH. unfold named in *. simpl in Habsent.
    destruct (JS.strict_eq_str (username a) name); [discriminate|exact Habsent].
  - apply not_default_fixpoint.
Qed.

Lemma setDefault_absent_clears_flags_witness :
  state_of (handleSetDefaultAccount "bob" [alice true; alice false])
  = map not_default [alice true; alice false].
Proof.
  apply (setDefault_absent_clears_flags "bob" [alice true; alice false]).
  reflexivity.
Defined.

(** C4, as stated, fails: when the user declines the confirmation prompt,
    [remove("alice")] issues no DELETE call at all. *)
Lemma remove_declined_counterexample :
  let cache := [alice true] in
  named "alice" cache <> []
  /\ requests (effects_of (handleRemoveTwitterAccount false "alice"
                             (Resolved (VObj [("success", VBool true)])) cache))
     = [].
Proof. split; [discriminate | reflexivity]. Qed.

(** C4 (amended): once the user has confirmed the prompt,
    [remove(username)] issues exactly one call, the DELETE for that
    username; the entries of that username leave the list if and only if
    the call resolves (whatever the response body), and if it rejects the
    list is unchanged.  If the user declines, no call is issued and the
    list is unchanged. *)
Theorem remove_applies_after_success (name : string) (cache : list account)
        (o : axios_outcome value) :
  let run := handleRemoveTwitterAccount true name o cache in
  outcome_of run = Ok tt
  /\ requests (effects_of run) = [delete_request name]
  /\ (forall data, o = Resolved data ->
      state_of run
      = filter (fun a => negb (JS.strict_eq_str (username a) name)) cache
      /\ named name (state_of run) = [])
  /\ (forall err, o = Rejected err -> state_of run = cache)
  /\ (named name cache <> [] ->
      (named name (state_of run) = [] <-> exists data, o = Resolved data))
  /\ (requests (effects_of (handleRemoveTwitterAccount false name o cache)) = []
      /\ state_of (handleRemoveTwitterAccount false name o cache) = cache).
Proof.
  cbv zeta.
  assert (Hgone : named name
            (filter (fun a => negb (JS.strict_eq_str (username a) name)) cache)
            = []).
  { unfold named. induction cache as [|a l IH]; simpl; [reflexivity|].
    destruct (JS.strict_eq_str (username a) name) eqn:E; simpl; [exact IH|].
    rewrite E. exact IH. }
  rewrite handleRemoveTwitterAccount_requests, handleRemoveTwitterAccount_state.
  split.
  { destruct o as [data|err]; [reflexivity|].
    unfold handleRemoveTwitterAccount, authService.await, try_catch, bind, emit,
      lift, outcome_of; simpl.
    destruct (JS.get err "response"); reflexivity. }
  split; [reflexivity|]. split; [|split; [|split]].
  - intros data ->. split; [reflexivity|exact Hgone].
  - intros err ->. reflexivity.
  - intros Hin. destruct o as [data|err]; split.
    + intros _. exists data. reflexivity.
    + intros _. exact Hgone.
    + intros H. contradiction.
    + intros [data H]. discriminate.
  - split; reflexivity.
Qed.

Lemma remove_applies_after_success_witness :
  named "alice" [alice true; bob false] <> []
  /\ state_of (handleRemoveTwitterAccount true "alice"
                 (Resolved (VObj [("success", VBool true)]))
                 [alice true; bob false]) = [bob false]
  /\ state_of (handleRemoveTwitterAccount true "alice"
                 (Rejected (rejection Transport))
                 [alice true; bob false]) = [alice true; bob false].
Proof.
  split; [discriminate|]. split.
  - destruct (remove_applies_after_success "alice" [alice true; bob false]
                (Resolved (VObj [("success", VBool true)])))
      as (_ & _ & H & _).
    destruct (H _ eq_refl) as [-> _]. reflexivity.
  - destruct (remove_applies_after_success "alice" [alice true; bob false]
                (Rejected (rejection Transport)))
      as (_ & _ & _ & H & _).
    apply (H _ eq_refl).
Defined.

Lemma handleTwitterSuccess_keeps_invariant (response : value)
      (fetch : axios_outcome accounts_payload) (cache : list account) :
  at_most_one_default cache = true ->
  (forall a l, fetch = Resolved (Some (a :: l)) ->
               at_most_one_default (a :: l) = true) ->
  at_most_one_default
    (state_of (handleTwitterSuccess cache response fetch cache)) = true.
Proof.
  intros Hcache Hfetched. rewrite handleTwitterSuccess_state.
  assert (Hlocal : forall x,
             is_default x = Nat.eqb (List.length cache) 0 ->
             at_most_one_default (cache ++ [x]) = true).
  { intros x Hx. unfold at_most_one_default in *. rewrite defaults_app.
    assert (Hone : defaults [x] = if is_default x then [x] else [])
      by reflexivity.
    rewrite Hone, Hx. destruct cache as [|c cs]; simpl Nat.eqb; cbv iota.
    - reflexivity.
    - rewrite app_nil_r. exact Hcache. }
  destruct fetch as [[[|a l]|]|err];
    try (apply (Hfetched a l eq_refl));
    (destruct (JS.truthy response && JS.truthy (JS.get_opt response "username"));
     [apply Hlocal; reflexivity | exact Hcache]).
Qed.

(** C5, as stated, fails: linking alice twice while the refresh fetch
    fails leaves two entries named alice, one of them default; the
    invariant holds there, and [setDefault("alice")] then marks both. *)
Lemma default_invariant_counterexample :
  let fetch := Rejected (rejection Transport) in
  let cache := deliver fetch [] [flat_result; flat_result] in
  cache = [alice true; alice false]
  /\ at_most_one_default cache = true
  /\ state_of (handleSetDefaultAccount "alice" cache) = [alice true; alice true]
  /\ at_most_one_default (state_of (handleSetDefaultAccount "alice" cache))
     = false.
Proof. repeat split. Qed.

(** C5 (amended): [remove(username)] preserves "at most one default";
    [setDefault(username)] leaves exactly as many defaults as there are
    entries with that username, hence at most one whenever at most one
    entry carries it, and exactly one on a two-account list whose second
    account it names and whose first it does not, whatever the flags were
    before; the update after a link (the handler seeing the current list)
    preserves the invariant when it adds the entry locally, and otherwise
    installs the fetched list as it is (so it preserves the invariant when
    that list satisfies it). *)
Theorem default_invariant_preservation :
  (forall confirmed name o cache,
      at_most_one_default cache = true ->
      at_most_one_default
        (state_of (handleRemoveTwitterAccount confirmed name o cache)) = true)
  /\ (forall name cache,
      List.length (defaults (state_of (handleSetDefaultAccount name cache)))
      = List.length (named name cache))
  /\ (forall name cache,
      List.length (named name cache) <= 1 ->
      at_most_one_default (state_of (handleSetDefaultAccount name cache)) = true)
  /\ (forall response fetch cache,
      at_most_one_default cache = true ->
      (forall a l, fetch = Resolved (Some (a :: l)) ->
                   at_most_one_default (a :: l) = true) ->
      at_most_one_default
        (state_of (handleTwitterSuccess cache response fetch cache)) = true)
  /\ (forall a b name,
      username b = VStr name -> username a <> VStr name ->
      List.length (defaults (state_of (handleSetDefaultAccount name [a; b])))
      = 1).
Proof.
  split; [|split; [|split; [|split]]].
  - intros confirmed name o cache H.
    rewrite handleRemoveTwitterAccount_state.
    destruct confirmed; [|exact H]. destruct o; [|exact H].
    unfold at_most_one_default in *. apply Nat.leb_le. apply Nat.leb_le in H.
    pose proof (defaults_filter_le
                  (fun a => negb (JS.strict_eq_str (username a) name)) cache).
    lia.
  - apply defaults_after_setDefault.
  - intros name cache H. unfold at_most_one_default.
    rewrite defaults_after_setDefault. apply Nat.leb_le. exact H.
  - apply handleTwitterSuccess_keeps_invariant.
  - intros a b name Hb Ha. rewrite defaults_after_setDefault.
    unfold named. simpl. rewrite Hb. simpl. rewrite String.eqb_refl.
    destruct (username a) as [| | | |t| |]; simpl; try reflexivity.
    destruct (String.eqb_spec t name); [subst; contradiction|reflexivity].
Qed.

Lemma default_invariant_preservation_witness :
  username (bob false) = VStr "bob" /\ username (alice true) <> VStr "bob"
  /\ List.length
       (defaults (state_of (handleSetDefaultAccount "bob" [alice true; bob false])))
     = 1.
Proof.
  split; [reflexivity|]. split; [discriminate|].
  destruct default_invariant_preservation as (_ & _ & _ & _ & H).
  apply (H (alice true) (bob false) "bob"); [reflexivity|discriminate].
Defined.

(** C2, as stated, fails: with the link result of the specification (the
    account nested under [account]) and the refresh fetch failing, the
    modal reaches [success] and hands the result on, but the list stays
    empty: the handler looks for [username] at the top level. *)
Lemma link_success_counterexample :
  let run := TwitterAuthModal.complete
               (TwitterAuthModal.onSubmit true alice_form)
               (Resolved nested_result) after_start in
  TwitterAuthModal.requestId after_start = VStr "abc123"
  /\ TwitterAuthModal.step (state_of run) = "success"
  /\ emitted (effects_of run) = [nested_result]
  /\ deliver (Rejected (rejection Transport)) [] (emitted (effects_of run)) = [].
Proof. repeat split. Qed.

(** C2 (amended): after [start()] stored ["abc123"], a submit for alice
    that resolves [{success:true, username:"alice", display_name:"Alice",
    profile_image_url:"http://x/a.png"}] (the account fields at the top
    level of the result) puts the modal in [success] and hands the result
    to the caller; starting from an empty list, the list afterwards is the
    freshly fetched one when the fetch returns a non-empty list, and
    otherwise (the fetch fails or returns nothing) holds exactly one
    entry, alice, marked default. *)
Theorem link_success_updates_cache (fetch : axios_outcome accounts_payload) :
  let run := TwitterAuthModal.complete
               (TwitterAuthModal.onSubmit true alice_form)
               (Resolved flat_result) after_start in
  TwitterAuthModal.requestId after_start = VStr "abc123"
  /\ requests (effects_of run)
     = [authenticate_request "abc123"
          (VObj [("username", VStr "alice"); ("password", VStr "pw");
                 ("two_factor_token", VUndefined)])]
  /\ outcome_of run = Ok tt
  /\ TwitterAuthModal.step (state_of run) = "success"
  /\ emitted (effects_of run) = [flat_result]
  /\ deliver fetch [] (emitted (effects_of run))
     = match fetch with
       | Resolved (Some (a :: l)) => a :: l
       | _ => [alice true]
       end.
Proof.
  cbv zeta. repeat split.
  change (emitted _) with [flat_result]. unfold deliver. simpl fold_left.
  rewrite handleTwitterSuccess_state.
  destruct fetch as [[[|a l]|]|err]; reflexivity.
Qed.

End AccountList.

(* ===================================================================== *)
(** ** Cancelling right after the start *)
(* ===================================================================== *)

Section Cancellation.
Import TwitterAuthModal Flow Scenario.

(** Opening the fresh modal starts the link: one request goes out and
    its continuation, the rest of [startAuth], is quiet. *)
Lemma open_from_init : isOpen (dispatch init Open) = true /\ calm (dispatch init Open).
Proof.
  split; [reflexivity|]. unfold calm. split; [reflexivity|]. split.
  - simpl. constructor; [|constructor].
    intros o m. js_unfold. js_run; reflexivity.
  - reflexivity.
Qed.

Lemma remove_nth_Forall {A} (P : A -> Prop) (i : nat) (l : list A) :
  Forall P l -> Forall P (remove_nth i l).
Proof.
  intros H. revert i. induction H as [|x l Hx Hl IH]; intros i; simpl.
  - destruct i; constructor.
  - destruct i; [exact Hl|]. constructor; [exact Hx|apply IH].
Qed.

Lemma settle_calm (s : system) (i : nat) (o : axios_outcome value) :
  calm s ->
  calm (dispatch s (Settle i o)) /\ isOpen (dispatch s (Settle i o)) = isOpen s.
Proof.
  intros (Ht & Hq & Hr). unfold dispatch.
  destruct (enabled (Settle i o) s); [|repeat split; assumption].
  destruct (nth_error (inflight s) i) as [k|] eqn:Hk;
    [|repeat split; assumption].
  assert (Hquiet : quiet k).
  { apply nth_error_In in Hk. rewrite Forall_forall in Hq. apply Hq, Hk. }
  unfold resume. specialize (Hquiet o (ui (with_inflight (remove_nth i (inflight s)) s))).
  destruct (k o (ui (with_inflight (remove_nth i (inflight s)) s)))
    as [[r m] w]. unfold effects_of in Hquiet. simpl in Hquiet. subst w.
  simpl. unfold calm. simpl. repeat split; try assumption.
  apply remove_nth_Forall, Hq.
Qed.

Lemma fire_calm (s : system) (id : Z) :
  calm s -> dispatch s (Fire id) = s.
Proof.
  intros (Ht & _). unfold dispatch. simpl. rewrite Ht. reflexivity.
Qed.

Lemma spontaneous_calm (s : system) (e : event) :
  calm s -> spontaneous e = true ->
  calm (dispatch s e) /\ isOpen (dispatch s e) = isOpen s.
Proof.
  intros Hc He. destruct e; try discriminate.
  - apply settle_calm, Hc.
  - rewrite (fire_calm s id Hc). split; [exact Hc|reflexivity].
Qed.

Lemma close_calm (s : system) :
  calm s -> calm (dispatch s Close) /\ isOpen (dispatch s Close) = false.
Proof.
  intros (Ht & Hq & Hr). unfold dispatch. simpl.
  destruct (isOpen s) eqn:Hopen; [|repeat split; assumption].
  unfold absorb, close, log. simpl. rewrite Hopen.
  unfold effect_cleanup, bind, read, when, emit, ret, effects_of. simpl.
  destruct (JS.truthy (statusCheckInterval (ui s))); simpl; unfold calm; simpl;
    rewrite ?Ht; repeat split; try assumption;
    rewrite ?requests_app; simpl; rewrite ?app_nil_r; try assumption.
  - destruct (statusCheckInterval (ui s)); reflexivity.
Qed.

Lemma closed_calm (s : system) (e : event) :
  calm s -> isOpen s = false -> is_Open e = false ->
  calm (dispatch s e) /\ isOpen (dispatch s e) = false.
Proof.
  intros Hc Hclosed He. destruct e; try discriminate.
  - unfold dispatch. simpl. rewrite Hclosed. split; assumption.
  - unfold dispatch. simpl. rewrite Hclosed. split; assumption.
  - unfold dispatch. simpl. rewrite Hclosed. split; assumption.
  - destruct (settle_calm s i o Hc) as [H1 H2]. split; [exact H1|].
    rewrite H2. exact Hclosed.
  - rewrite (fire_calm s id Hc). split; assumption.
Qed.

Lemma run_spontaneous_calm (events : list event) (s : system) :
  calm s -> forallb spontaneous events = true ->
  calm (run events s) /\ isOpen (run events s) = isOpen s.
Proof.
  unfold run. revert s.
  induction events as [|e events IH]; intros s Hc Hall; simpl.
  - split; [exact Hc|reflexivity].
  - simpl in Hall. apply andb_prop in Hall. destruct Hall as [He Hall].
    destruct (spontaneous_calm s e Hc He) as [Hc' Ho'].
    destruct (IH (dispatch s e) Hc' Hall) as [H1 H2].
    split; [exact H1|]. rewrite H2. exact Ho'.
Qed.

Lemma run_closed_calm (events : list event) (s : system) :
  calm s -> isOpen s = false ->
  forallb (fun e => negb (is_Open e)) events = true ->
  calm (run events s) /\ isOpen (run events s) = false.
Proof.
  unfold run. revert s.
  induction events as [|e events IH]; intros s Hc Hclosed Hall; simpl.
  - split; assumption.
  - simpl in Hall. apply andb_prop in Hall. destruct Hall as [He Hall].
    apply negb_true_iff in He.
    destruct (closed_calm s e Hc Hclosed He) as [Hc' Ho'].
    apply (IH (dispatch s e) Hc' Ho' Hall).
Qed.

(** C8: open the modal (which starts the link), let the start request
    settle or not, cancel; then, whatever settles or fires afterwards and
    whatever is attempted short of opening the modal again, no timer is
    active and the only request ever sent is the start request: no
    authenticate call and no status poll is issued. *)
Theorem cancel_after_start_is_final (before after : list event) :
  forallb spontaneous before = true ->
  forallb (fun e => negb (is_Open e)) after = true ->
  let s := run (Open :: before ++ Close :: after) init in
  timers s = []
  /\ requests (trace s) = [authService.sent authService.startTwitterAuth]
  /\ isOpen s = false.
Proof.
  intros Hbefore Hafter. cbv zeta. unfold run.
  change (fold_left dispatch (Open :: before ++ Close :: after) init)
    with (fold_left dispatch (before ++ Close :: after) (dispatch init Open)).
  rewrite fold_left_app.
  destruct open_from_init as [Hopen Hcalm].
  destruct (run_spontaneous_calm before _ Hcalm Hbefore) as [Hc1 _].
  unfold run in Hc1.
  change (fold_left dispatch (Close :: after) ?x)
    with (fold_left dispatch after (dispatch x Close)).
  destruct (close_calm _ Hc1) as [Hc2 Hclosed].
  destruct (run_closed_calm after _ Hc2 Hclosed Hafter) as [(Ht & _ & Hr) Ho].
  unfold run in *. repeat split; assumption.
Qed.

Lemma cancel_after_start_is_final_witness :
  let s := run [Open; Settle 0 start_abc123; Close;
                Submit alice_form; Try_again; Settle 0 start_abc123; Fire 1]
               init in
  timers s = []
  /\ requests (trace s) = [authService.sent authService.startTwitterAuth]
  /\ isOpen s = false.
Proof.
  apply (cancel_after_start_is_final
           [Settle 0 start_abc123]
           [Submit alice_form; Try_again; Settle 0 start_abc123; Fire 1]);
    reflexivity.
Defined.

End Cancellation.

(* ===================================================================== *)
(** ** The session methods of [authService] and the [AuthProvider] *)
(* ===================================================================== *)

Section Session.
Import Scenario.

Ltac user_unfold :=
  unfold AuthProvider.login, AuthProvider.register, AuthProvider.logout,
    AuthProvider.on_mount, AuthProvider.updateUserProfile,
    AuthProvider.setCurrentUser,
    AuthProvider.setIsAuthenticated, AuthProvider.setLoading,
    AuthProvider.setError, AuthProvider.setItem_token,
    AuthProvider.removeItem_token,
    authServiceUser.methods, authServiceUser.login,
    authServiceUser.register, authServiceUser.logout,
    authServiceUser.getUserProfile, authServiceUser.updateUserSettings,
    authServiceUser.createTonePreset, authServiceUser.deleteTonePreset,
    authServiceUser.addTwitterAccount, authServiceUser.api,
    authServiceUser.fail_with, authServiceUser.append,
    throw, try_finally, try_catch, bind, emit, lift, ret, read, when, update,
    outcome_of, state_of, effects_of.

Lemma or_message_truthy (m fallback : string) :
  fallback <> "" -> JS.truthy (JS.or (VStr m) (VStr fallback)) = true.
Proof.
  intros Hf. unfold JS.or. simpl. destruct (m =? "") eqn:E; simpl.
  - destruct (String.eqb_spec fallback ""); [contradiction|reflexivity].
  - rewrite E. reflexivity.
Qed.

Lemma service_method_throws_Error (S : Type) (arg : value)
      (o : axios_outcome value) (m : M S value) (s : S) (e : value) :
  In m (authServiceUser.methods arg o) ->
  outcome_of (m s) = Throw e ->
  exists msg, e = VObj [("message", VStr msg)].
Proof.
  intros Hin. simpl in Hin.
  repeat (destruct Hin as [<-|Hin]); [..|contradiction];
    user_unfold; js_run; intros H; inversion H; eexists; reflexivity.
Qed.

(** X1: whatever axios rejects with (even [null]) and whatever argument
    a method is given, an [authService] method that fails throws an
    [Error]-like object carrying a string [message]; so a caller's read of
    [err.message] never throws. *)
Theorem authService_rejections_are_Errors :
  (forall (A : Type) (fallback : string) (o : axios_outcome A) (e : value),
      authService.rethrow fallback o = Throw e ->
      exists msg, e = VObj [("message", VStr msg)])
  /\ (forall (S : Type) (arg : value) (o : axios_outcome value)
             (m : M S value) (s : S) (e : value),
      In m (authServiceUser.methods arg o) ->
      outcome_of (m s) = Throw e ->
      exists msg, e = VObj [("message", VStr msg)]).
Proof.
  split.
  - intros A fallback o e. apply rethrow_throws_object.
  - intros S arg o m s e. apply service_method_throws_Error.
Qed.

Lemma authService_rejections_are_Errors_witness :
  exists msg,
    outcome_of (authServiceUser.login (S := unit) VNull (Rejected VNull) tt)
    = Throw (VObj [("message", VStr msg)]).
Proof.
  destruct authService_rejections_are_Errors as [_ H].
  destruct (H unit VNull (Rejected VNull)
              (authServiceUser.login VNull (Rejected VNull)) tt
              (JS.new_Error (VStr "Login failed")))
    as [msg Hmsg].
  - left. reflexivity.
  - reflexivity.
  - exists msg. rewrite <- Hmsg. reflexivity.
Defined.

(** X2: [authService.login] sends one POST to [/user/auth/login] whose
    form carries, as strings, the username (or, when that is missing or
    empty, the email) and the password, so a field that is missing goes
    out as the text "undefined"; given no credentials object at all it
    sends nothing and fails with the generic "Login failed". *)
Theorem login_form_and_missing_credentials (S : Type) (s : S)
        (o : axios_outcome value) :
  (forall props,
      requests (effects_of (authServiceUser.login (VObj props) o s))
      = [mkRequest POST "/user/auth/login"
           (VObj [("username",
                   VStr (JS.to_string (JS.or (JS.lookup "username" props)
                                             (JS.lookup "email" props))));
                  ("password",
                   VStr (JS.to_string (JS.lookup "password" props)))])])
  /\ requests (effects_of (authServiceUser.login (VObj []) o s))
     = [mkRequest POST "/user/auth/login"
          (VObj [("username", VStr "undefined");
                 ("password", VStr "undefined")])]
  /\ (forall credentials,
      JS.nullish credentials = true ->
      requests (effects_of (authServiceUser.login credentials o s)) = []
      /\ outcome_of (authServiceUser.login credentials o s)
         = Throw (JS.new_Error (VStr "Login failed"))).
Proof.
  split; [|split].
  - intros props. user_unfold. unfold JS.or. simpl.
    destruct (JS.truthy (JS.lookup "username" props)); simpl;
      destruct o as [data|err]; simpl; try reflexivity;
      destruct (JS.get err "response"); reflexivity.
  - user_unfold. simpl. destruct o as [data|err]; simpl; try reflexivity.
    destruct (JS.get err "response"); reflexivity.
  - intros credentials Hnull.
    destruct credentials; try discriminate; split; reflexivity.
Qed.

Lemma login_form_and_missing_credentials_witness :
  outcome_of (authServiceUser.login (S := unit) VUndefined
                (Resolved (VObj [])) tt)
  = Throw (JS.new_Error (VStr "Login failed")).
Proof.
  destruct (login_form_and_missing_credentials unit tt (Resolved (VObj [])))
    as (_ & _ & H).
  apply (H VUndefined eq_refl).
Defined.

(** X3: a failed [login] or [register] of the provider rethrows to its
    caller (it never returns), records a message in [error], and leaves
    the stored token, the current user and the authenticated flag as
    they were; for a credentials object and a rejected request the thrown
    error and the recorded message are the service's [detail], or "Login
    failed" when there is none. *)
Theorem login_failure_leaves_session (credentials err : value)
        (s : AuthProvider.session) :
  (forall run,
      run = AuthProvider.login credentials (Rejected err) s
      \/ run = AuthProvider.register credentials (Rejected err) s ->
      (exists e, outcome_of run = Throw e)
      /\ AuthProvider.token (state_of run) = AuthProvider.token s
      /\ AuthProvider.currentUser (state_of run) = AuthProvider.currentUser s
      /\ AuthProvider.isAuthenticated (state_of run)
         = AuthProvider.isAuthenticated s
      /\ AuthProvider.loading (state_of run) = AuthProvider.loading s
      /\ JS.truthy (AuthProvider.error (state_of run)) = true)
  /\ (forall props f,
      credentials = VObj props -> err = rejection f ->
      let run := AuthProvider.login credentials (Rejected err) s in
      outcome_of run
      = Throw (JS.new_Error (message_or "Login failed" (reported_detail f)))
      /\ AuthProvider.error (state_of run)
         = message_or "Login failed" (reported_detail f)).
Proof.
  split.
  - intros run [-> | ->]; destruct s; user_unfold; js_run;
      repeat split; try reflexivity;
      try (apply or_message_truthy; discriminate); eexists; reflexivity.
  - intros props f -> ->. cbv zeta. destruct s.
    destruct f as [msg| |]; user_unfold; unfold message_or, JS.or; simpl;
      try (destruct (JS.truthy (JS.lookup "username" props)); simpl;
           split; reflexivity).
    destruct (JS.truthy (JS.lookup "username" props)); simpl;
      destruct (msg =? "") eqn:E; simpl; rewrite ?E; split; reflexivity.
Qed.

Lemma login_failure_leaves_session_witness :
  let s := AuthProvider.mkSession VNull false false VNull VNull in
  let run := AuthProvider.login (form "alice" "pw" VUndefined)
                                (Rejected (rejection (Service_detail "locked")))
                                s in
  outcome_of run = Throw (JS.new_Error (VStr "locked"))
  /\ AuthProvider.error (state_of run) = VStr "locked".
Proof.
  cbv zeta.
  destruct (login_failure_leaves_session
              (form "alice" "pw" VUndefined)
              (rejection (Service_detail "locked"))
              (AuthProvider.mkSession VNull false false VNull VNull))
    as [_ H].
  apply (H _ (Service_detail "locked") eq_refl eq_refl).
Defined.

(** X4: a [login] of the provider that the service answers with an
    object returns that object, stores its [access_token] as the token
    (as a string: "undefined" when the answer has none), takes its [user]
    as current user and marks the session authenticated; an empty ([null])
    answer makes it throw with the session's token, user and flag
    untouched. *)
Theorem login_success_opens_session (props rp : list (string * value))
        (s : AuthProvider.session) :
  (let run := AuthProvider.login (VObj props) (Resolved (VObj rp)) s in
   outcome_of run = Ok (VObj rp)
   /\ state_of run
      = AuthProvider.mkSession
          (JS.lookup "user" rp) true (AuthProvider.loading s) VNull
          (VStr (JS.to_string (JS.lookup "access_token" rp))))
  /\ (JS.lookup "access_token" rp = VUndefined ->
      AuthProvider.token
        (state_of (AuthProvider.login (VObj props) (Resolved (VObj rp)) s))
      = VStr "undefined")
  /\ (forall data,
      JS.nullish data = true ->
      let run := AuthProvider.login (VObj props) (Resolved data) s in
      (exists e, outcome_of run = Throw e)
      /\ AuthProvider.token (state_of run) = AuthProvider.token s
      /\ AuthProvider.currentUser (state_of run) = AuthProvider.currentUser s
      /\ AuthProvider.isAuthenticated (state_of run)
         = AuthProvider.isAuthenticated s).
Proof.
  assert (Hrun : state_of (AuthProvider.login (VObj props) (Resolved (VObj rp)) s)
                 = AuthProvider.mkSession
                     (JS.lookup "user" rp) true (AuthProvider.loading s) VNull
                     (VStr (JS.to_string (JS.lookup "access_token" rp)))).
  { destruct s. user_unfold. simpl.
    destruct (JS.truthy (JS.lookup "username" props)); reflexivity. }
  split; [|split].
  - cbv zeta. split; [|exact Hrun].
    destruct s. user_unfold. simpl.
    destruct (JS.truthy (JS.lookup "username" props)); reflexivity.
  - intros Hnone. rewrite Hrun. simpl. rewrite Hnone. reflexivity.
  - intros data Hnull. cbv zeta. destruct s.
    destruct data; try discriminate; user_unfold; simpl;
      destruct (JS.truthy (JS.lookup "username" props)); simpl;
      repeat split; eexists; reflexivity.
Qed.

Lemma login_success_opens_session_witness :
  AuthProvider.token
    (state_of (AuthProvider.login (form "alice" "pw" VUndefined)
                 (Resolved (VObj [("user", VObj [])]))
                 (AuthProvider.initial_session VNull)))
  = VStr "undefined".
Proof.
  destruct (login_success_opens_session
              [("username", VStr "alice"); ("password", VStr "pw");
               ("twoFactorToken", VUndefined)]
              [("user", VObj [])] (AuthProvider.initial_session VNull))
    as (_ & H & _).
  apply H. reflexivity.
Defined.

Lemma logout_run (o : axios_outcome value) (s : AuthProvider.session) :
  outcome_of (AuthProvider.logout o s) = Ok tt
  /\ state_of (AuthProvider.logout o s)
     = AuthProvider.mkSession VNull false (AuthProvider.loading s)
                              (AuthProvider.error s) VNull
  /\ requests (effects_of (AuthProvider.logout o s))
     = [mkRequest POST "/user/auth/logout"
                  (VObj [("token", AuthProvider.token s)])].
Proof.
  destruct s. user_unfold. js_run; repeat split.
Qed.

(** X5: [logout] of the provider never throws and always ends the
    session locally -- token removed, no current user, not authenticated
    -- whether the logout request succeeds or fails; it sends exactly one
    request, carrying the token that was stored. *)
Theorem logout_always_clears (o : axios_outcome value) (s : AuthProvider.session) :
  let run := AuthProvider.logout o s in
  outcome_of run = Ok tt
  /\ state_of run
     = AuthProvider.mkSession VNull false (AuthProvider.loading s)
                              (AuthProvider.error s) VNull
  /\ requests (effects_of run)
     = [mkRequest POST "/user/auth/logout"
                  (VObj [("token", AuthProvider.token s)])].
Proof. apply logout_run. Qed.

(** X6: the provider's mount effect never throws and always ends with
    [loading] false.  Without a (non-empty) stored token it sends nothing
    and changes nothing else; with one it sends exactly the profile
    request, and then either adopts the answer as current user and marks
    the session authenticated, keeping the token, or, if the request
    fails, removes the token and leaves user and flag as they were. *)
Theorem on_mount_outcomes (o : axios_outcome value) (s : AuthProvider.session) :
  let run := AuthProvider.on_mount o s in
  outcome_of run = Ok tt
  /\ AuthProvider.loading (state_of run) = false
  /\ (JS.truthy (AuthProvider.token s) = false ->
      effects_of run = []
      /\ state_of run
         = AuthProvider.mkSession
             (AuthProvider.currentUser s) (AuthProvider.isAuthenticated s)
             false (AuthProvider.error s) (AuthProvider.token s))
  /\ (JS.truthy (AuthProvider.token s) = true ->
      requests (effects_of run) = [mkRequest GET "/user/profile" VUndefined]
      /\ (forall data, o = Resolved data ->
          state_of run
          = AuthProvider.mkSession data true false (AuthProvider.error s)
                                   (AuthProvider.token s))
      /\ (forall err, o = Rejected err ->
          state_of run
          = AuthProvider.mkSession
              (AuthProvider.currentUser s) (AuthProvider.isAuthenticated s)
              false (AuthProvider.error s) VNull)).
Proof.
  destruct s as [u a l e t]. cbv zeta.
  unfold AuthProvider.on_mount, bind, read. cbn [AuthProvider.token].
  destruct (JS.truthy t) eqn:Ht.
  - user_unfold. simpl.
    destruct o as [data|err]; simpl.
    + repeat split; try discriminate; intros; congruence.
    + destruct (JS.get err "response"); simpl;
        repeat split; try discriminate; intros; congruence.
  - user_unfold. simpl.
    repeat split; try discriminate; intros; congruence.
Qed.

Lemma on_mount_outcomes_witness :
  state_of (AuthProvider.on_mount (Rejected (rejection Transport))
              (AuthProvider.initial_session (VStr "t0k")))
  = AuthProvider.mkSession VNull false false VNull VNull.
Proof.
  destruct (on_mount_outcomes (Rejected (rejection Transport))
              (AuthProvider.initial_session (VStr "t0k")))
    as (_ & _ & _ & H).
  destruct (H eq_refl) as (_ & _ & Hrej).
  apply (Hrej _ eq_refl).
Defined.

(** X7: after a [logout], however it went, a new mount of the provider
    sends no request and ends unauthenticated and no longer loading: the
    session cannot be restored from what logout left behind. *)
Theorem no_restore_after_logout (o1 o2 : axios_outcome value)
        (s : AuthProvider.session) :
  let left := state_of (AuthProvider.logout o1 s) in
  let run := AuthProvider.on_mount o2 left in
  effects_of run = []
  /\ AuthProvider.isAuthenticated (state_of run) = false
  /\ AuthProvider.currentUser (state_of run) = VNull
  /\ AuthProvider.loading (state_of run) = false.
Proof.
  cbv zeta. destruct (logout_run o1 s) as (_ & -> & _).
  repeat split.
Qed.

(** Reading a property back from an object literal with spread. *)
Lemma lookup_set_prop (k k' : string) (v : value) (props : list (string * value)) :
  JS.lookup k (JSObject.set_prop k' v props)
  = if k' =? k then v else JS.lookup k props.
Proof.
  induction props as [|[k0 v0] rest IH]; simpl.
  - destruct (k' =? k); reflexivity.
  - destruct (k0 =? k') eqn:E0; simpl.
    + apply String.eqb_eq in E0. subst k0. destruct (k' =? k); reflexivity.
    + destruct (k0 =? k) eqn:E1.
      * apply String.eqb_eq in E1. subst k0. rewrite String.eqb_sym in E0.
        rewrite E0. reflexivity.
      * exact IH.
Qed.

Lemma lookup_absent (k : string) (props : list (string * value)) :
  existsb (String.eqb k) (map fst props) = false -> JS.lookup k props = VUndefined.
Proof.
  induction props as [|[k0 v0] rest IH]; simpl; [reflexivity|].
  intros H. apply orb_false_elim in H. destruct H as [H1 H2].
  rewrite String.eqb_sym, H1. apply IH, H2.
Qed.

Lemma lookup_assign (k : string) (props more : list (string * value)) :
  NoDup (map fst more) ->
  JS.lookup k (JSObject.assign props more)
  = if existsb (String.eqb k) (map fst more) then JS.lookup k more
    else JS.lookup k props.
Proof.
  unfold JSObject.assign. revert props.
  induction more as [|[k1 v1] rest IH]; intros props Hnd; simpl; [reflexivity|].
  inversion Hnd as [|? ? Hnotin Hrest]; subst.
  rewrite (IH _ Hrest). rewrite lookup_set_prop.
  rewrite (String.eqb_sym k k1).
  destruct (k1 =? k) eqn:E; simpl; [|reflexivity].
  apply String.eqb_eq in E. subst k1.
  destruct (existsb (String.eqb k) (map fst rest)) eqn:Hex; [|reflexivity].
  exfalso. apply Hnotin. apply existsb_exists in Hex.
  destruct Hex as (x & Hin & Hx). apply String.eqb_eq in Hx. subst x. exact Hin.
Qed.

(** X8: [updateUserProfile(userData)] never throws and touches only the
    current user, which becomes an object in which every property of
    [userData] reads as [userData] has it (also when that is [undefined])
    and every other property reads as before; on a [null] user the result
    holds just the properties of [userData]. *)
Theorem updateUserProfile_merges (prevUser : value) (userData : list (string * value))
        (s : AuthProvider.session) (k : string) :
  NoDup (map fst userData) ->
  AuthProvider.currentUser s = prevUser ->
  let run := AuthProvider.updateUserProfile (VObj userData) s in
  outcome_of run = Ok tt
  /\ effects_of run = []
  /\ AuthProvider.token (state_of run) = AuthProvider.token s
  /\ AuthProvider.isAuthenticated (state_of run) = AuthProvider.isAuthenticated s
  /\ (exists merged, AuthProvider.currentUser (state_of run) = VObj merged
      /\ JS.lookup k merged
         = if existsb (String.eqb k) (map fst userData)
           then JS.lookup k userData
           else JS.lookup k (JSObject.own prevUser))
  /\ (prevUser = VNull ->
      JS.get_opt (AuthProvider.currentUser (state_of run)) k
      = JS.lookup k userData).
Proof.
  intros Hnd Hprev. cbv zeta. destruct s as [u a l e t]. simpl in Hprev. subst u.
  repeat split.
  - eexists. split; [reflexivity|]. simpl. apply lookup_assign, Hnd.
  - intros ->. simpl. rewrite (lookup_assign k [] userData Hnd).
    destruct (existsb (String.eqb k) (map fst userData)) eqn:Hex; [reflexivity|].
    symmetry. apply lookup_absent, Hex.
Qed.

Lemma updateUserProfile_merges_witness :
  let s := AuthProvider.mkSession
             (VObj [("name", VStr "Al"); ("plan", VStr "free")])
             true false VNull (VStr "t0k") in
  exists merged,
    AuthProvider.currentUser
      (state_of (AuthProvider.updateUserProfile
                   (VObj [("plan", VUndefined)]) s)) = VObj merged
    /\ JS.lookup "plan" merged = VUndefined.
Proof.
  cbv zeta.
  destruct (updateUserProfile_merges
              (VObj [("name", VStr "Al"); ("plan", VStr "free")])
              [("plan", VUndefined)]
              (AuthProvider.mkSession
                 (VObj [("name", VStr "Al"); ("plan", VStr "free")])
                 true false VNull (VStr "t0k"))
              "plan")
    as (_ & _ & _ & _ & (merged & Hm & Hk) & _).
  - repeat constructor. intros [].
  - reflexivity.
  - exists merged. split; [exact Hm|exact Hk].
Defined.

End Session.

(* ===================================================================== *)
(** ** Loading the Settings page and editing its form *)
(* ===================================================================== *)

Section SettingsForm.
Import SettingsPage.

Ltac page_unfold :=
  unfold fetchData, handleInputChange, handleNotificationChange,
    handleToggleChange, handleSubmit, setLoading, setSaving,
    setTwitterAccounts, setSettings, authService.await, authService.settle,
    authService.getTwitterAccounts, authService.rethrow,
    try_finally, try_catch, bind, emit, lift, ret, read, when, update,
    outcome_of, state_of, effects_of.

Lemma fetchData_run (o : axios_outcome accounts_payload) (s : page) :
  outcome_of (fetchData o s) = Ok tt
  /\ state_of (fetchData o s)
     = mkPage false (saving s) (showTwitterModal s)
              (match o with
               | Resolved (Some (a :: l)) => a :: l
               | _ => [mock_account]
               end)
              mock_settings
  /\ requests (effects_of (fetchData o s))
     = [mkRequest GET "/user/twitter-accounts" VUndefined].
Proof.
  destruct s. page_unfold.
  destruct o as [[[|a l]|]|err]; simpl; try (repeat split; reflexivity).
  destruct (JS.get err "response"); simpl; repeat split; reflexivity.
Qed.

(** X9: loading the Settings page never throws, sends exactly the
    account-list request, installs the demo settings and ends with
    [loading] false; the account list afterwards is the fetched list when
    that is non-empty and otherwise (empty or absent list, failed request)
    the single built-in demo account marked default -- so it is never
    empty, and it has at most one default whenever the fetched list
    has. *)
Theorem fetchData_never_leaves_list_empty (o : axios_outcome accounts_payload)
        (s : page) :
  let run := fetchData o s in
  outcome_of run = Ok tt
  /\ requests (effects_of run) = [mkRequest GET "/user/twitter-accounts" VUndefined]
  /\ loading (state_of run) = false
  /\ settings (state_of run) = mock_settings
  /\ twitterAccounts (state_of run)
     = match o with
       | Resolved (Some (a :: l)) => a :: l
       | _ => [mock_account]
       end
  /\ twitterAccounts (state_of run) <> []
  /\ ((forall a l, o = Resolved (Some (a :: l)) ->
                   Settings.at_most_one_default (a :: l) = true) ->
      Settings.at_most_one_default (twitterAccounts (state_of run)) = true).
Proof.
  cbv zeta. destruct (fetchData_run o s) as (Hout & Hst & Hreq).
  rewrite Hst. simpl.
  repeat split; try assumption.
  - destruct o as [[[|a l]|]|err]; discriminate.
  - intros Hfetched. destruct o as [[[|a l]|]|err]; try reflexivity.
    apply (Hfetched a l eq_refl).
Qed.

Lemma fetchData_never_leaves_list_empty_witness :
  twitterAccounts
    (state_of (fetchData (Resolved (Some [Scenario.alice true; Scenario.bob false]))
                         initial_page))
  = [Scenario.alice true; Scenario.bob false]
  /\ Settings.at_most_one_default
       (twitterAccounts
          (state_of (fetchData
                       (Resolved (Some [Scenario.alice true; Scenario.bob false]))
                       initial_page))) = true.
Proof.
  destruct (fetchData_never_leaves_list_empty
              (Resolved (Some [Scenario.alice true; Scenario.bob false]))
              initial_page)
    as (_ & _ & _ & _ & Hl & _ & Hinv).
  split; [exact Hl|]. apply Hinv.
  intros a l H. inversion H. reflexivity.
Defined.

(** X10: an edit of the settings form reads back and disturbs nothing
    else.  After [handleInputChange name v] (or [handleToggleChange])
    the setting [name] is [v] and every other setting is as before; after
    [handleNotificationChange name checked] the notification [name] is
    [checked], every top-level setting but [notifications] is as before,
    and so is every other notification.  In particular the text field and
    the checkbox that are both named [email] do not overwrite each
    other. *)
Theorem settings_edits_read_back (name k : string) (v : value) (checked : bool)
        (s : page) :
  JS.lookup name (settings (state_of (handleInputChange name v s))) = v
  /\ JS.lookup name (settings (state_of (handleToggleChange name checked s)))
     = VBool checked
  /\ (k <> name ->
      JS.lookup k (settings (state_of (handleInputChange name v s)))
      = JS.lookup k (settings s)
      /\ JS.lookup k (settings (state_of (handleToggleChange name checked s)))
         = JS.lookup k (settings s))
  /\ (name <> "notifications" ->
      notification k (settings (state_of (handleInputChange name v s)))
      = notification k (settings s))
  /\ notification name
       (settings (state_of (handleNotificationChange name checked s)))
     = VBool checked
  /\ (k <> "notifications" ->
      JS.lookup k (settings (state_of (handleNotificationChange name checked s)))
      = JS.lookup k (settings s))
  /\ (forall np, JS.lookup "notifications" (settings s) = VObj np ->
      k <> name ->
      notification k
        (settings (state_of (handleNotificationChange name checked s)))
      = notification k (settings s)).
Proof.
  destruct s as [l sv sh accts st]. unfold notification. simpl.
  repeat split.
  - rewrite lookup_set_prop, String.eqb_refl. reflexivity.
  - rewrite lookup_set_prop, String.eqb_refl. reflexivity.
  - rewrite lookup_set_prop.
    destruct (String.eqb_spec name k); [congruence|reflexivity].
  - rewrite lookup_set_prop.
    destruct (String.eqb_spec name k); [congruence|reflexivity].
  - intros Hn. rewrite lookup_set_prop.
    destruct (String.eqb_spec name "notifications"); [contradiction|reflexivity].
  - rewrite lookup_set_prop. simpl. rewrite lookup_set_prop, String.eqb_refl.
    reflexivity.
  - intros Hk. rewrite lookup_set_prop.
    destruct (String.eqb_spec "notifications" k); [congruence|reflexivity].
  - intros np Hnp Hk. rewrite lookup_set_prop. simpl. rewrite Hnp. simpl.
    rewrite lookup_set_prop.
    destruct (String.eqb_spec name k); [congruence|reflexivity].
Qed.

Lemma settings_edits_read_back_witness :
  JS.lookup "email"
    (settings (state_of (handleNotificationChange "email" false
                           (state_of (fetchData (Rejected VNull) initial_page)))))
  = VStr "demo@example.com"
  /\ notification "push"
       (settings (state_of (handleNotificationChange "email" false
                              (state_of (fetchData (Rejected VNull) initial_page)))))
     = VBool true.
Proof.
  destruct (settings_edits_read_back "email" "email" VNull false
              (state_of (fetchData (Rejected VNull) initial_page)))
    as (_ & _ & _ & _ & _ & Htop & _).
  destruct (settings_edits_read_back "email" "push" VNull false
              (state_of (fetchData (Rejected VNull) initial_page)))
    as (_ & _ & _ & _ & _ & _ & Hother).
  split.
  - rewrite Htop; [reflexivity|discriminate].
  - rewrite (Hother _ eq_refl); [reflexivity|discriminate].
Defined.

Lemma perform_run (e : edit) (s : page) :
  outcome_of (perform e s) = Ok tt
  /\ requests (effects_of (perform e s)) = []
  /\ twitterAccounts (state_of (perform e s)) = twitterAccounts s
  /\ loading (state_of (perform e s)) = loading s
  /\ showTwitterModal (state_of (perform e s)) = showTwitterModal s.
Proof.
  destruct s. destruct e; repeat split.
Qed.

Lemma perform_all_run (edits : list edit) (s : page) :
  outcome_of (perform_all edits s) = Ok tt
  /\ requests (effects_of (perform_all edits s)) = []
  /\ twitterAccounts (state_of (perform_all edits s)) = twitterAccounts s
  /\ loading (state_of (perform_all edits s)) = loading s
  /\ showTwitterModal (state_of (perform_all edits s)) = showTwitterModal s.
Proof.
  revert s. induction edits as [|e rest IH]; intros s; [repeat split|].
  destruct (perform_run e s) as (H1 & H2 & H3 & H4 & H5).
  simpl. unfold bind, outcome_of, state_of, effects_of in *.
  destruct (perform e s) as [[r s1] w1]. simpl in *. subst r.
  specialize (IH s1). destruct (perform_all rest s1) as [[r2 s2] w2].
  simpl in *. destruct IH as (I1 & I2 & I3 & I4 & I5).
  rewrite requests_app, H2, I2. repeat split; congruence.
Qed.

(** X11: the settings form is purely local: no sequence of edits and
    saves ever sends a request or throws, and none touches the account
    list; pressing Save leaves every setting as it is and ends with
    [saving] false -- nothing is persisted. *)
Theorem settings_form_is_local (edits : list edit) (s : page) :
  outcome_of (perform_all edits s) = Ok tt
  /\ requests (effects_of (perform_all edits s)) = []
  /\ twitterAccounts (state_of (perform_all edits s)) = twitterAccounts s
  /\ loading (state_of (perform_all edits s)) = loading s
  /\ settings (state_of (handleSubmit s)) = settings s
  /\ saving (state_of (handleSubmit s)) = false
  /\ effects_of (handleSubmit s) = [Toast_success "Settings saved successfully!"].
Proof.
  destruct (perform_all_run edits s) as (H1 & H2 & H3 & H4 & _).
  repeat split; try assumption; destruct s; reflexivity.
Qed.

End SettingsForm.

(* ===================================================================== *)
(** ** More about the account list *)
(* ===================================================================== *)

Section AccountListMore.
Import Settings Scenario.

Lemma defaults_filter_comm (f : account -> bool) (l : list account) :
  defaults (filter f l) = filter f (defaults l).
Proof.
  unfold defaults. induction l as [|a l IH]; simpl; [reflexivity|].
  destruct (f a) eqn:Ef; destruct (is_default a) eqn:Ed; simpl;
    rewrite ?Ef, ?Ed, IH; reflexivity.
Qed.

Lemma filter_none_matching (name : string) (l : list account) :
  named name l = [] ->
  filter (fun a => negb (JS.strict_eq_str (username a) name)) l = l.
Proof.
  unfold named. induction l as [|a l IH]; simpl; [reflexivity|].
  destruct (JS.strict_eq_str (username a) name); [discriminate|].
  intros H. simpl. rewrite (IH H). reflexivity.
Qed.

(** X12: when the update after a link adds the entry locally (the
    refresh brought no list and the result has a [username]), the list
    grows by exactly that one entry, and the entry is marked default
    exactly when the list the handler captured at render time was empty,
    whatever the list holds by then: with an empty captured list and a
    list that already has its default, two entries end up default. *)
Theorem link_default_follows_snapshot (twitterAccounts cache : list account)
        (response : value) (fetch : axios_outcome accounts_payload) :
  (forall a l, fetch <> Resolved (Some (a :: l))) ->
  JS.truthy response && JS.truthy (JS.get_opt response "username") = true ->
  let after :=
    state_of (handleTwitterSuccess twitterAccounts response fetch cache) in
  List.length after = S (List.length cache)
  /\ List.length (defaults after)
     = List.length (defaults cache)
       + (if Nat.eqb (List.length twitterAccounts) 0 then 1 else 0)
  /\ (twitterAccounts = [] -> List.length (defaults cache) = 1 ->
      at_most_one_default after = false).
Proof.
  intros Hfetch Hname. cbv zeta. rewrite handleTwitterSuccess_state.
  assert (Hafter :
    match fetch with
    | Resolved (Some (a :: l)) => a :: l
    | _ =>
        if JS.truthy response && JS.truthy (JS.get_opt response "username")
        then (cache ++ [mkAccount
                          (JS.get_opt response "username")
                          (JS.or (JS.get_opt response "display_name")
                                 (JS.get_opt response "username"))
                          (JS.or (JS.get_opt response "profile_image_url")
                                 (VStr placeholder_image))
                          (Nat.eqb (List.length twitterAccounts) 0) true])%list
        else cache
    end
    = (cache ++ [mkAccount
                   (JS.get_opt response "username")
                   (JS.or (JS.get_opt response "display_name")
                          (JS.get_opt response "username"))
                   (JS.or (JS.get_opt response "profile_image_url")
                          (VStr placeholder_image))
                   (Nat.eqb (List.length twitterAccounts) 0) true])%list).
  { rewrite Hname. destruct fetch as [[[|a l]|]|err]; try reflexivity.
    exfalso. apply (Hfetch a l). reflexivity. }
  rewrite Hafter. clear Hafter. split; [|split].
  - rewrite length_app. simpl. lia.
  - rewrite defaults_app, length_app. unfold defaults at 2. simpl.
    destruct (Nat.eqb (List.length twitterAccounts) 0); reflexivity.
  - intros -> Hone. unfold at_most_one_default.
    rewrite defaults_app, length_app, Hone. reflexivity.
Qed.

Lemma link_default_follows_snapshot_witness :
  at_most_one_default
    (state_of (handleTwitterSuccess [] flat_result
                 (Rejected (rejection Transport)) [bob true])) = false.
Proof.
  destruct (link_default_follows_snapshot [] [bob true] flat_result
              (Rejected (rejection Transport)))
    as (_ & _ & H).
  - intros a l. discriminate.
  - reflexivity.
  - apply H; reflexivity.
Defined.

(** X13: a removal that went through changes no flag: the defaults left
    are the old defaults minus the removed username, so removing the
    default account leaves the list without any default (no other account
    is promoted); and removing a username the list does not hold leaves
    the list as it is, though the DELETE call is still sent. *)
Theorem remove_promotes_nobody (name : string) (cache : list account)
        (data : value) :
  let run := handleRemoveTwitterAccount true name (Resolved data) cache in
  defaults (state_of run)
  = filter (fun a => negb (JS.strict_eq_str (username a) name)) (defaults cache)
  /\ ((forall a, In a (defaults cache) ->
                 JS.strict_eq_str (username a) name = true) ->
      defaults (state_of run) = [])
  /\ (named name cache = [] ->
      state_of run = cache /\ requests (effects_of run) = [delete_request name]).
Proof.
  cbv zeta. rewrite handleRemoveTwitterAccount_state,
    handleRemoveTwitterAccount_requests, defaults_filter_comm.
  split; [reflexivity|]. split.
  - intros Hall. induction (defaults cache) as [|a l IH]; simpl; [reflexivity|].
    rewrite (Hall a (or_introl eq_refl)). simpl. apply IH.
    intros b Hb. apply Hall. right. exact Hb.
  - intros Habsent. split; [|reflexivity].
    apply filter_none_matching, Habsent.
Qed.

Lemma remove_promotes_nobody_witness :
  defaults (state_of (handleRemoveTwitterAccount true "alice"
                        (Resolved (VObj [("success", VBool true)]))
                        [alice true; bob false])) = [].
Proof.
  destruct (remove_promotes_nobody "alice" [alice true; bob false]
              (VObj [("success", VBool true)]))
    as (_ & H & _).
  apply H. intros a [<-|[]]. reflexivity.
Defined.

(** X14: [setDefault] keeps the entries, their order and their
    usernames, and the last call wins: setting one default and then
    another leaves the list exactly as setting the second alone (so
    repeating a call changes nothing more). *)
Theorem setDefault_last_wins (n1 n2 : string) (cache : list account) :
  state_of (handleSetDefaultAccount n2
              (state_of (handleSetDefaultAccount n1 cache)))
  = state_of (handleSetDefaultAccount n2 cache)
  /\ map username (state_of (handleSetDefaultAccount n1 cache))
     = map username cache
  /\ List.length (state_of (handleSetDefaultAccount n1 cache))
     = List.length cache.
Proof.
  rewrite !handleSetDefaultAccount_state. repeat split.
  - rewrite map_map. reflexivity.
  - rewrite map_map. reflexivity.
  - apply length_map.
Qed.

End AccountListMore.

(* ===================================================================== *)
(** ** More about the modal's handlers *)
(* ===================================================================== *)

Section HandlersMore.
Import TwitterAuthModal Scenario.

(** X15: a start that the service answers with an object always moves
    the modal to [credentials] and stores [response.request_id], even
    when the answer has no such field: the stored id is then [undefined]
    and the next submit goes to [/user/auth/twitter/authenticate/undefined].
    A [null] answer ends in [error] with the request id untouched.  In
    every case exactly the start request is sent. *)
Theorem startAuth_stores_request_id (m : modal) (o : axios_outcome value) :
  requests (effects_of (complete startAuth o m))
  = [authService.sent authService.startTwitterAuth]
  /\ (forall rp,
      state_of (complete startAuth (Resolved (VObj rp)) m)
      = mkModal "credentials" (JS.lookup "request_id" rp) VNull
                (statusCheckInterval m))
  /\ (forall rp onSuccess u p code,
      JS.lookup "request_id" rp = VUndefined ->
      requests (effects_of
                  (onSubmit onSuccess (form u p code)
                     (state_of (complete startAuth (Resolved (VObj rp)) m))))
      = [authenticate_request "undefined"
           (VObj [("username", VStr u); ("password", VStr p);
                  ("two_factor_token", JS.or code VUndefined)])])
  /\ (forall data,
      JS.nullish data = true ->
      step (state_of (complete startAuth (Resolved data) m)) = "error"
      /\ requestId (state_of (complete startAuth (Resolved data) m))
         = requestId m).
Proof.
  split; [|split; [|split]].
  - js_unfold. js_run; reflexivity.
  - intros rp. destruct m. reflexivity.
  - intros rp onSuccess u p code Hnone. destruct m. js_unfold. simpl.
    rewrite Hnone. reflexivity.
  - intros data Hnull. destruct m.
    destruct data; try discriminate; split; reflexivity.
Qed.

Lemma startAuth_stores_request_id_witness :
  requests (effects_of
              (onSubmit true alice_form
                 (state_of (complete startAuth (Resolved (VObj [])) initial_modal))))
  = [authenticate_request "undefined"
       (VObj [("username", VStr "alice"); ("password", VStr "pw");
              ("two_factor_token", VUndefined)])].
Proof.
  destruct (startAuth_stores_request_id initial_modal (Resolved (VObj [])))
    as (_ & _ & H & _).
  apply (H [] true "alice" "pw" (VStr "") eq_refl).
Defined.

Lemma onSubmit_success_run (onSuccess : bool) (u p : string) (code : value)
      (rp : list (string * value)) (m : modal) :
  JS.truthy (JS.lookup "success" rp) = true ->
  complete (onSubmit onSuccess (form u p code)) (Resolved (VObj rp)) m
  = (Ok tt,
     mkModal "success" (requestId m) VNull (statusCheckInterval m),
     ([Http (authenticate_request (JS.to_string (requestId m))
               (VObj [("username", VStr u); ("password", VStr p);
                      ("two_factor_token", JS.or code VUndefined)]))]
      ++ (if onSuccess then [On_success (VObj rp)] else [])
      ++ [Toast_success "Twitter account linked successfully!";
          Set_timeout_onClose 2000])%list).
Proof.
  intros Hok. destruct m. js_unfold. simpl. rewrite Hok.
  destruct onSuccess; reflexivity.
Qed.

(** X16: whatever the form holds, a submit whose answer has a truthy
    [success] ends in step [success] with the error cleared and the
    request id kept, hands that answer to [onSuccess] exactly once (when
    the callback was passed), shows the confirmation toast and schedules
    the close after 2000 ms -- in that order, after its single request. *)
Theorem onSubmit_success_effects (onSuccess : bool) (u p : string) (code : value)
        (rp : list (string * value)) (m : modal) :
  JS.truthy (JS.lookup "success" rp) = true ->
  let run := complete (onSubmit onSuccess (form u p code))
                      (Resolved (VObj rp)) m in
  outcome_of run = Ok tt
  /\ state_of run = mkModal "success" (requestId m) VNull (statusCheckInterval m)
  /\ effects_of run
     = ([Http (authenticate_request (JS.to_string (requestId m))
                 (VObj [("username", VStr u); ("password", VStr p);
                        ("two_factor_token", JS.or code VUndefined)]))]
        ++ (if onSuccess then [On_success (VObj rp)] else [])
        ++ [Toast_success "Twitter account linked successfully!";
            Set_timeout_onClose 2000])%list
  /\ emitted (effects_of run) = (if onSuccess then [VObj rp] else []).
Proof.
  intros Hok. cbv zeta. rewrite (onSubmit_success_run onSuccess u p code rp m Hok).
  repeat split. destruct onSuccess; reflexivity.
Qed.

Lemma onSubmit_success_effects_witness :
  emitted (effects_of (complete (onSubmit true alice_form)
                                (Resolved flat_result) after_start))
  = [flat_result].
Proof.
  apply (onSubmit_success_effects true "alice" "pw" (VStr "")
           [("success", VBool true); ("username", VStr "alice");
            ("display_name", VStr "Alice");
            ("profile_image_url", VStr "http://x/a.png")]
           after_start eq_refl).
Defined.

End HandlersMore.

(* ===================================================================== *)
(** ** What every run of the modal keeps *)
(* ===================================================================== *)

Section Runs.
Import TwitterAuthModal Flow FlowInvariant Scenario.

Lemma absorb_ui (s : system) (e : effect) : ui (absorb s e) = ui s.
Proof.
  destruct e; try reflexivity.
  unfold absorb, close, log. simpl. destruct (isOpen s); [|reflexivity].
  unfold effect_cleanup, bind, read, when, emit, ret, effects_of. simpl.
  destruct (JS.truthy (statusCheckInterval (ui s))); reflexivity.
Qed.

Lemma absorb_inflight (s : system) (e : effect) :
  inflight (absorb s e) = inflight s.
Proof.
  destruct e; try reflexivity.
  unfold absorb, close, log. simpl. destruct (isOpen s); [|reflexivity].
  unfold effect_cleanup, bind, read, when, emit, ret, effects_of. simpl.
  destruct (JS.truthy (statusCheckInterval (ui s))); reflexivity.
Qed.

Lemma absorb_trace (s : system) (e : effect) :
  statusCheckInterval (ui s) = VNull ->
  trace (absorb s e) = (trace s ++ [e])%list.
Proof.
  intros Hnull. destruct e; try reflexivity.
  unfold absorb, close, log. simpl. destruct (isOpen s); [|reflexivity].
  unfold effect_cleanup, bind, read, when, emit, ret, effects_of. simpl.
  rewrite Hnull. reflexivity.
Qed.

Lemma absorb_timers_On_close (s : system) :
  statusCheckInterval (ui s) = VNull ->
  timers (absorb s On_close) = timers s.
Proof.
  intros Hnull. unfold absorb, close, log. simpl.
  destruct (isOpen s); [|reflexivity].
  unfold effect_cleanup, bind, read, when, emit, ret, effects_of. simpl.
  rewrite Hnull. reflexivity.
Qed.

Lemma fold_absorb_ui (w : list effect) (s : system) :
  ui (fold_left absorb w s) = ui s.
Proof.
  revert s. induction w as [|e w IH]; intros s; simpl; [reflexivity|].
  rewrite IH. apply absorb_ui.
Qed.

Lemma fold_absorb_inflight (w : list effect) (s : system) :
  inflight (fold_left absorb w s) = inflight s.
Proof.
  revert s. induction w as [|e w IH]; intros s; simpl; [reflexivity|].
  rewrite IH. apply absorb_inflight.
Qed.

Lemma fold_absorb_trace (w : list effect) (s : system) :
  statusCheckInterval (ui s) = VNull ->
  trace (fold_left absorb w s) = (trace s ++ w)%list.
Proof.
  revert s. induction w as [|e w IH]; intros s Hnull; simpl.
  - rewrite app_nil_r. reflexivity.
  - rewrite IH by (rewrite absorb_ui; exact Hnull).
    rewrite (absorb_trace s e Hnull), <- app_assoc. reflexivity.
Qed.

Lemma existsb_is_clear_app (w1 w2 : list effect) :
  existsb is_clear (w1 ++ w2) = existsb is_clear w1 || existsb is_clear w2.
Proof. apply existsb_app. Qed.

Lemma handle_shape (h : M modal suspended) (s : system) :
  statusCheckInterval (state_of (h (ui s))) = VNull ->
  ui (handle h s) = state_of (h (ui s))
  /\ trace (handle h s) = (trace s ++ effects_of (h (ui s)))%list
  /\ inflight (handle h s)
     = match outcome_of (h (ui s)) with
       | Ok (Awaiting k) => (inflight s ++ [k])%list
       | _ => inflight s
       end.
Proof.
  unfold handle, state_of, effects_of, outcome_of.
  destruct (h (ui s)) as [[r m] w]. simpl. intros Hnull.
  assert (Hui : ui (fold_left absorb w (with_ui m s)) = m)
    by (rewrite fold_absorb_ui; reflexivity).
  assert (Htr : trace (fold_left absorb w (with_ui m s)) = (trace s ++ w)%list)
    by (rewrite fold_absorb_trace; [reflexivity|exact Hnull]).
  assert (Hin : inflight (fold_left absorb w (with_ui m s)) = inflight s)
    by (rewrite fold_absorb_inflight; reflexivity).
  destruct r as [[|k]|e]; simpl; rewrite ?Hin; repeat split; assumption.
Qed.

Lemma handle_steady (h : M modal suspended) (s : system) :
  behaved h -> steady s -> steady (handle h s).
Proof.
  intros Hb (Hnull & Hq & Hpost & Hclear).
  destruct (Hb (ui s) Hnull) as (B1 & B2 & B3 & B4).
  destruct (handle_shape h s B1) as (Hui & Htr & Hin).
  unfold steady. rewrite Hui, Htr, Hin, requests_app, existsb_is_clear_app,
    Hclear, B3.
  repeat split; try assumption.
  - destruct (outcome_of (h (ui s))) as [[|k]|e] eqn:Ho; try assumption.
    apply Forall_app. split; [exact Hq|]. constructor; [|constructor].
    apply B4. reflexivity.
  - apply Forall_app. split; assumption.
Qed.

Lemma behaved_open : behaved (effect_cleanup ;; effect_body true).
Proof.
  intros m Hnull. destruct m as [st rid err iv]. simpl in Hnull. subst iv.
  unfold effect_cleanup, effect_body, bind, read, when, ret, emit,
    state_of, effects_of, outcome_of. simpl.
  destruct (st =? "initial"); simpl.
  - split; [reflexivity|]. split; [repeat constructor|].
    split; [reflexivity|].
    intros k Hk. inversion Hk; subst k; clear Hk.
    intros o m. js_unfold. js_run; repeat split; discriminate.
  - split; [reflexivity|]. split; [constructor|]. split; [reflexivity|].
    intros k Hk. discriminate.
Qed.

Lemma behaved_submit (data : value) : behaved (onSubmit true data).
Proof.
  intros m Hnull. destruct m as [st rid err iv]. simpl in Hnull. subst iv.
  js_unfold.
  destruct data; simpl;
    (split; [reflexivity|]; split; [repeat constructor|];
     split; [reflexivity|];
     intros k Hk; inversion Hk; subst k; clear Hk;
     intros o m; js_unfold; js_run; repeat split; discriminate).
Qed.

Lemma behaved_try_again : behaved (setStep "credentials" ;; ret Finished).
Proof.
  intros m Hnull. destruct m as [st rid err iv]. simpl in Hnull. subst iv.
  split; [reflexivity|]. split; [constructor|]. split; [reflexivity|].
  intros k Hk. discriminate.
Qed.

Lemma steady_init : steady init.
Proof. repeat split; constructor. Qed.

Lemma steady_on_close (s : system) : steady s -> steady (absorb s On_close).
Proof.
  intros Hs. pose proof Hs as (Hnull & Hq & Hpost & Hclear).
  unfold steady. rewrite absorb_ui, absorb_inflight, (absorb_trace s _ Hnull),
    requests_app, existsb_is_clear_app, Hclear. simpl.
  rewrite app_nil_r. repeat split; assumption.
Qed.

Lemma steady_frame (s : system) (b : bool) (l : list Z)
      (q : list (axios_outcome value -> M modal unit)) :
  steady s -> Forall tame q ->
  steady (with_isOpen b s) /\ steady (with_timers l s)
  /\ steady (with_inflight q s).
Proof.
  intros (Hnull & Hq & Hpost & Hclear) Hq'. repeat split; assumption.
Qed.

Lemma resume_steady (k : axios_outcome value -> M modal unit)
      (o : axios_outcome value) (s : system) :
  tame k -> steady s ->
  steady (resume k o s)
  /\ requests (trace (resume k o s)) = requests (trace s)
  /\ step (ui (resume k o s)) <> "initial".
Proof.
  intros Hk (Hnull & Hq & Hpost & Hclear).
  destruct (Hk o (ui s)) as (K1 & K2 & K3 & K4).
  unfold resume, state_of, effects_of in *.
  destruct (k o (ui s)) as [[r m] w]. simpl in *.
  assert (Hm : statusCheckInterval m = VNull) by congruence.
  unfold steady.
  rewrite fold_absorb_ui, fold_absorb_inflight, fold_absorb_trace by exact Hm.
  simpl. rewrite requests_app, existsb_is_clear_app, K1, K2, Hclear, app_nil_r.
  repeat split; assumption.
Qed.

Lemma dispatch_steady (s : system) (e : event) :
  steady s -> steady (dispatch s e).
Proof.
  intros Hs. unfold dispatch. destruct (enabled e s); [|exact Hs].
  destruct e.
  - apply handle_steady; [apply behaved_open|].
    apply (steady_frame s true [] []); [exact Hs|constructor].
  - apply steady_on_close, Hs.
  - apply handle_steady; [apply behaved_submit|exact Hs].
  - apply handle_steady; [apply behaved_try_again|exact Hs].
  - destruct (nth_error (inflight s) i) as [k|] eqn:Hk; [|exact Hs].
    pose proof Hs as (_ & Hq & _).
    apply resume_steady.
    + apply nth_error_In in Hk. rewrite Forall_forall in Hq. apply Hq, Hk.
    + apply (steady_frame s true [] (remove_nth i (inflight s)));
        [exact Hs|apply remove_nth_Forall, Hq].
  - apply steady_on_close.
    apply (steady_frame s true
             (filter (fun t => negb (t =? id)%Z) (timers s)) []);
      [exact Hs|constructor].
Qed.

Lemma run_steady (events : list event) (s : system) :
  steady s -> steady (run events s).
Proof.
  unfold run. revert s. induction events as [|e events IH]; intros s Hs; simpl.
  - exact Hs.
  - apply IH, dispatch_steady, Hs.
Qed.

(** X17: the status poll is dead code.  In every state the modal can
    reach, [statusCheckInterval] is still [null], every request sent so
    far is a POST (the start or a submit; never the GET of the status
    endpoint), and no timer has ever been cleared. *)
Theorem modal_never_polls (events : list event) :
  let s := run events init in
  statusCheckInterval (ui s) = VNull
  /\ Forall (fun r => method r = POST) (requests (trace s))
  /\ existsb is_clear (trace s) = false.
Proof.
  cbv zeta. destruct (run_steady events init steady_init) as (H1 & _ & H3 & H4).
  repeat split; assumption.
Qed.

(** X18: closing the modal cancels nothing: in every reachable state a
    close leaves every timer that was set still set (the scheduled
    auto-close among them). *)
Theorem close_keeps_timers (events : list event) :
  timers (dispatch (run events init) Close) = timers (run events init).
Proof.
  destruct (run_steady events init steady_init) as (Hnull & _).
  unfold dispatch. destruct (enabled Close (run events init)); [|reflexivity].
  apply absorb_timers_On_close, Hnull.
Qed.

Lemma starts_app (w1 w2 : list effect) :
  starts (w1 ++ w2) = starts w1 + starts w2.
Proof.
  unfold starts. rewrite requests_app, filter_app, length_app. reflexivity.
Qed.

Lemma dispatch_past_initial (s : system) (e : event) :
  steady s -> step (ui s) <> "initial" ->
  starts (trace (dispatch s e)) = starts (trace s)
  /\ step (ui (dispatch s e)) <> "initial".
Proof.
  intros Hs Hstep. pose proof Hs as (Hnull & Hq & _).
  unfold dispatch. destruct (enabled e s); [|split; [reflexivity|exact Hstep]].
  destruct e.
  - assert (Hrun : (effect_cleanup ;; effect_body true) (ui s)
                   = (Ok Finished, ui s, [])).
    { destruct (ui s) as [st rid err iv]. simpl in *. subst iv.
      unfold effect_cleanup, effect_body, bind, read, when, ret. simpl.
      destruct (String.eqb_spec st "initial"); [contradiction|reflexivity]. }
    destruct (handle_shape (effect_cleanup ;; effect_body true)
                           (with_isOpen true s)) as (Hui & Htr & _).
    { simpl. rewrite Hrun. exact Hnull. }
    rewrite Hui, Htr. simpl. rewrite Hrun. simpl. rewrite app_nil_r.
    split; [reflexivity|exact Hstep].
  - rewrite absorb_ui, (absorb_trace s _ Hnull), starts_app. simpl.
    split; [apply Nat.add_0_r|exact Hstep].
  - destruct (behaved_submit data (ui s) Hnull) as (B1 & _).
    destruct (handle_shape (onSubmit true data) s B1) as (Hui & Htr & _).
    rewrite Hui, Htr, starts_app.
    destruct (ui s) as [st rid err iv]. js_unfold.
    destruct data; simpl; (split; [apply Nat.add_0_r|discriminate]).
  - destruct (handle_shape (setStep "credentials" ;; ret Finished) s)
      as (Hui & Htr & _); [exact Hnull|].
    rewrite Hui, Htr. simpl. rewrite app_nil_r.
    split; [reflexivity|discriminate].
  - destruct (nth_error (inflight s) i) as [k|] eqn:Hk;
      [|split; [reflexivity|exact Hstep]].
    assert (Hk' : tame k).
    { apply nth_error_In in Hk. rewrite Forall_forall in Hq. apply Hq, Hk. }
    destruct (resume_steady k o (with_inflight (remove_nth i (inflight s)) s) Hk')
      as (_ & Hreq & Hst).
    + apply (steady_frame s true [] (remove_nth i (inflight s)));
        [exact Hs|apply remove_nth_Forall, Hq].
    + unfold starts. rewrite Hreq. split; [reflexivity|exact Hst].
  - rewrite absorb_ui, absorb_trace by exact Hnull.
    rewrite starts_app. simpl. split; [apply Nat.add_0_r|exact Hstep].
Qed.

Lemma run_past_initial (events : list event) (s : system) :
  steady s -> step (ui s) <> "initial" ->
  starts (trace (run events s)) = starts (trace s)
  /\ step (ui (run events s)) <> "initial".
Proof.
  unfold run. revert s.
  induction events as [|e events IH]; intros s Hs Hstep; simpl.
  - split; [reflexivity|exact Hstep].
  - destruct (dispatch_past_initial s e Hs Hstep) as [H1 H2].
    destruct (IH (dispatch s e) (dispatch_steady s e Hs) H2) as [H3 H4].
    split; [congruence|exact H4].
Qed.

(** X19: a link is started at most while the modal is in step
    [initial], and the modal never comes back to it: once any reachable
    state has left [initial], nothing that happens afterwards -- closing,
    re-opening, retrying, submitting, late answers, timers -- sends
    another start request or brings the step back to [initial].  A modal
    that has finished a link cannot begin a second one. *)
Theorem no_second_start (before after : list event) :
  step (ui (run before init)) <> "initial" ->
  starts (trace (run after (run before init)))
  = starts (trace (run before init))
  /\ step (ui (run after (run before init))) <> "initial".
Proof.
  intros Hstep. apply run_past_initial; [|exact Hstep].
  apply run_steady, steady_init.
Qed.

Lemma no_second_start_witness :
  starts (trace (run [Close; Open; Try_again; Close; Open]
                     (run [Open; Settle 0 start_abc123] init)))
  = 1.
Proof.
  destruct (no_second_start [Open; Settle 0 start_abc123]
                            [Close; Open; Try_again; Close; Open])
    as [H _].
  - discriminate.
  - rewrite H. reflexivity.
Defined.

(** X20: the Try Again button leads to a submit without a request id.
    When the start request fails, however it fails, the modal shows the
    error; Try Again brings up the form without starting again, and the
    submit that follows posts the credentials to
    [/user/auth/twitter/authenticate/null]. *)
Theorem retry_after_failed_start_submits_without_id
        (err : value) (u p : string) (code : value) :
  let failed := run [Open; Settle 0 (Rejected err)] init in
  let s := run [Try_again; Submit (form u p code)] failed in
  step (ui failed) = "error"
  /\ requestId (ui s) = VNull
  /\ step (ui s) = "processing"
  /\ requests (trace s)
     = [authService.sent authService.startTwitterAuth;
        authenticate_request "null"
          (VObj [("username", VStr u); ("password", VStr p);
                 ("two_factor_token", JS.or code VUndefined)])].
Proof.
  cbv zeta. unfold run. simpl fold_left.
  assert (Hfailed : exists msg,
             dispatch (dispatch init Open) (Settle 0 (Rejected err))
             = mkSystem (mkModal "error" VNull msg VNull) true [] [] 1
                        [Http (authService.sent authService.startTwitterAuth)]).
  { unfold dispatch. simpl. unfold resume. js_unfold.
    destruct err; simpl; eexists; reflexivity. }
  destruct Hfailed as [msg ->]. repeat split.
Qed.

(** X21: cancelling does not stop a submit that is in flight.  If the
    user closes the modal after submitting, a successful answer that
    arrives later still puts the (closed) modal in [success], still hands
    the result to the page, and still sets the auto-close timer; when
    that timer fires it finds the modal already closed. *)
Theorem cancel_does_not_stop_submit (sp rp : list (string * value))
        (u p : string) (code : value) :
  JS.truthy (JS.lookup "success" rp) = true ->
  let s := run [Open; Settle 0 (Resolved (VObj sp)); Submit (form u p code);
                Close; Settle 0 (Resolved (VObj rp))] init in
  isOpen s = false
  /\ step (ui s) = "success"
  /\ emitted (trace s) = [VObj rp]
  /\ timers s = [1%Z]
  /\ timers (dispatch s (Fire 1)) = []
  /\ isOpen (dispatch s (Fire 1)) = false.
Proof.
  intros Hok. cbv zeta. unfold run. simpl fold_left.
  assert (Hs : dispatch
                 (dispatch
                    (dispatch
                       (dispatch (dispatch init Open)
                                 (Settle 0 (Resolved (VObj sp))))
                       (Submit (form u p code)))
                    Close)
                 (Settle 0 (Resolved (VObj rp)))
               = mkSystem
                   (mkModal "success" (JS.lookup "request_id" sp) VNull VNull)
                   false [] [1%Z] 2
                   [Http (authService.sent authService.startTwitterAuth);
                    Http (authenticate_request
                            (JS.to_string (JS.lookup "request_id" sp))
                            (VObj [("username", VStr u); ("password", VStr p);
                                   ("two_factor_token", JS.or code VUndefined)]));
                    On_close;
                    On_success (VObj rp);
                    Toast_success "Twitter account linked successfully!";
                    Set_timeout_onClose 2000]).
  { unfold dispatch. simpl. unfold resume. js_unfold. simpl. rewrite Hok.
    reflexivity. }
  rewrite Hs. repeat split.
Qed.

Lemma cancel_does_not_stop_submit_witness :
  emitted (trace (run [Open; Settle 0 start_abc123; Submit alice_form;
                       Close; Settle 0 (Resolved flat_result)] init))
  = [flat_result].
Proof.
  apply (cancel_does_not_stop_submit
           [("request_id", VStr "abc123")]
           [("success", VBool true); ("username", VStr "alice");
            ("display_name", VStr "Alice");
            ("profile_image_url", VStr "http://x/a.png")]
           "alice" "pw" (VStr "") eq_refl).
Defined.

End Runs.

(* ===================================================================== *)
(** ** Submitting and the step [initial] *)
(* ===================================================================== *)

Section SubmitGate.
Import TwitterAuthModal Flow FlowInvariant Scenario.

(** While the step is [initial] no request id is stored and nothing but
    start requests has been sent; every event keeps this. *)
Lemma dispatch_initial (s : system) (e : event) :
  steady s ->
  (step (ui s) = "initial" ->
   requestId (ui s) = VNull
   /\ Forall (fun r => r = authService.sent authService.startTwitterAuth)
             (requests (trace s))) ->
  step (ui (dispatch s e)) = "initial" ->
  requestId (ui (dispatch s e)) = VNull
  /\ Forall (fun r => r = authService.sent authService.startTwitterAuth)
            (requests (trace (dispatch s e))).
Proof.
  intros Hs Hinv Hafter. pose proof Hs as (Hnull & Hq & _).
  destruct (String.eqb_spec (step (ui s)) "initial") as [Hstep|Hstep];
    [|destruct (dispatch_past_initial s e Hs Hstep) as [_ H]; contradiction].
  destruct (Hinv Hstep) as [Hrid Hreq].
  unfold dispatch in *. destruct (enabled e s) eqn:Hen; [|split; assumption].
  destruct e.
  - assert (Hrun : (effect_cleanup ;; effect_body true) (ui s)
                   = (Ok (Awaiting
                            (fun o =>
                               try_catch
                                 (x <- lift (authService.settle
                                               authService.startTwitterAuth o) ;;
                                  rid <- lift (JS.get x "request_id") ;;
                                  setRequestId rid ;;
                                  setStep "credentials")
                                 (fun err =>
                                    m <- lift (JS.get err "message") ;;
                                    setError
                                      (JS.or m (VStr "Failed to start Twitter authentication")) ;;
                                    setStep "error"))),
                      mkModal "initial" VNull VNull VNull,
                      [Http (authService.sent authService.startTwitterAuth)])).
    { destruct (ui s) as [st rid err iv]. simpl in *. subst st rid iv.
      reflexivity. }
    destruct (handle_shape (effect_cleanup ;; effect_body true)
                           (with_isOpen true s)) as (Hui & Htr & _).
    { simpl. rewrite Hrun. reflexivity. }
    rewrite Hui, Htr. simpl. rewrite Hrun. simpl. split; [reflexivity|].
    rewrite requests_app. apply Forall_app. split; [exact Hreq|].
    repeat constructor.
  - rewrite absorb_ui, (absorb_trace s _ Hnull), requests_app. simpl.
    rewrite app_nil_r. split; assumption.
  - simpl in Hen. rewrite Hstep in Hen. rewrite andb_false_r in Hen.
    discriminate.
  - simpl in Hen. rewrite Hstep in Hen. rewrite andb_false_r in Hen.
    discriminate.
  - destruct (nth_error (inflight s) i) as [k|] eqn:Hk; [|split; assumption].
    assert (Hk' : tame k).
    { apply nth_error_In in Hk. rewrite Forall_forall in Hq. apply Hq, Hk. }
    destruct (resume_steady k o (with_inflight (remove_nth i (inflight s)) s) Hk')
      as (_ & _ & Hst).
    + apply (steady_frame s true [] (remove_nth i (inflight s)));
        [exact Hs|apply remove_nth_Forall, Hq].
    + contradiction.
  - rewrite absorb_ui, absorb_trace by exact Hnull.
    rewrite requests_app. simpl. rewrite app_nil_r. split; assumption.
Qed.

Lemma run_initial (events : list event) (s : system) :
  steady s ->
  (step (ui s) = "initial" ->
   requestId (ui s) = VNull
   /\ Forall (fun r => r = authService.sent authService.startTwitterAuth)
             (requests (trace s))) ->
  step (ui (run events s)) = "initial" ->
  requestId (ui (run events s)) = VNull
  /\ Forall (fun r => r = authService.sent authService.startTwitterAuth)
            (requests (trace (run events s))).
Proof.
  unfold run. revert s.
  induction events as [|e events IH]; intros s Hs Hinv Hafter; simpl in *.
  - apply Hinv, Hafter.
  - apply (IH (dispatch s e)); [apply dispatch_steady, Hs| |exact Hafter].
    apply dispatch_initial; assumption.
Qed.

(** C1, as stated, fails: with no successful start behind it -- the
    start request fails, the user presses Try Again -- the form is shown
    and the submit is accepted; it raises no InvalidState but posts the
    credentials to [/user/auth/twitter/authenticate/null]. *)
Lemma submit_without_request_id_counterexample :
  let before := run [Open; Settle 0 (Rejected (rejection Transport)); Try_again]
                    init in
  let s := dispatch before (Submit alice_form) in
  requestId (ui before) = VNull
  /\ starts (trace before) = 1
  /\ enabled (Submit alice_form) before = true
  /\ requests (trace s)
     = [authService.sent authService.startTwitterAuth;
        authenticate_request "null"
          (VObj [("username", VStr "alice"); ("password", VStr "pw");
                 ("two_factor_token", VUndefined)])]
  /\ step (ui s) = "processing"
  /\ TwitterAuthModal.error (ui s) = VNull.
Proof. repeat split. Qed.

(** C1 (amended): in every state the modal can reach, while the step is
    [initial] no submit can be made -- the form is not offered, and a
    submit event reaches no handler and changes nothing -- no request id
    is stored, and no authenticate call has been issued: every request
    sent so far is a start request.  (The code has no InvalidState
    condition.) *)
Theorem no_submit_while_initial (events : list event) (data : value) :
  let s := run events init in
  step (ui s) = "initial" ->
  enabled (Submit data) s = false
  /\ dispatch s (Submit data) = s
  /\ requestId (ui s) = VNull
  /\ Forall (fun r => r = authService.sent authService.startTwitterAuth)
            (requests (trace s)).
Proof.
  cbv zeta. intros Hstep.
  assert (Hen : enabled (Submit data) (run events init) = false).
  { simpl. rewrite Hstep. apply andb_false_r. }
  split; [exact Hen|]. split; [unfold dispatch; rewrite Hen; reflexivity|].
  apply (run_initial events init steady_init); [|exact Hstep].
  intros _. split; [reflexivity|constructor].
Qed.

Lemma no_submit_while_initial_witness :
  let s := run [Open] init in
  isOpen s = true
  /\ step (ui s) = "initial"
  /\ enabled (Submit alice_form) s = false
  /\ dispatch s (Submit alice_form) = s
  /\ requestId (ui s) = VNull
  /\ Forall (fun r => r = authService.sent authService.startTwitterAuth)
            (requests (trace s)).
Proof.
  cbv zeta. split; [reflexivity|]. split; [reflexivity|].
  apply (no_submit_while_initial [Open] alice_form). reflexivity.
Defined.

End SubmitGate.
